(** * BuildTable (db/builder.cc): a shallow embedding and its properties

    [BuildTable] drains a sorted iterator of internal key/value pairs into a
    freshly created table file, optionally dropping the older versions of a
    user key, then finishes the table, syncs and closes the file, re-opens
    the table through the table cache and finally either keeps the file or
    deletes it.

    The function is embedded as a computation in a small monad that threads
    the [FileMetaData] it mutates and the chronological list of calls it
    makes on its collaborators, and that can stop early in two ways: the C++
    [return] in the middle of the function, and a failing [assert]. *)

From Stdlib Require Import List String Ascii ZArith NArith Bool Lia.
Import ListNotations.

Set Implicit Arguments.

(** ** Data model *)

(** A [Slice] and a [std::string] are both byte strings. *)
Definition Slice := string.

(** [SequenceNumber] and [file_size] are [uint64_t]; the function only
    compares them, so no wrap-around is involved. *)
Definition SequenceNumber := N.

(** [Status] (leveldb/status.h): either OK or an error code with a message. *)
Inductive Code := kNotFound | kCorruption | kNotSupported | kInvalidArgument | kIOError.

Inductive Status :=
| OK
| Error (code : Code) (msg : string).

Definition ok (s : Status) : bool :=
  match s with OK => true | Error _ _ => false end.

Inductive ValueType := kTypeDeletion | kTypeValue.

(** [ParsedInternalKey] (db/dbformat.h). *)
Record ParsedInternalKey := {
  user_key : Slice;
  sequence : SequenceNumber;
  type : ValueType
}.

(** The three fields of [Options] that [BuildTable] reads. *)
Record Options := {
  purge_redundant_kvs_while_flush : bool;
  disableDataSync : bool;
  use_fsync : bool
}.

(** [FileMetaData] (db/version_edit.h).  [smallest] and [largest] are
    [InternalKey]s, which wrap the encoded byte string; [DecodeFrom] stores
    the slice it is given. *)
Record FileMetaData := {
  number : N;
  file_size : N;
  smallest : Slice;
  largest : Slice
}.

(** The input [Iterator]: the entries it yields from [SeekToFirst] until
    [Valid] turns false, and the status it reports once drained. *)
Record Iterator := {
  entries : list (Slice * Slice);
  status : Status
}.

(** [Comparator::Compare] is a three-way comparison returning an [int]. *)
Record Comparator := {
  Compare : Slice -> Slice -> Z
}.

(** [WritableFile]: the outcome of each of its fallible operations. *)
Record WritableFile := {
  Fsync : Status;
  Sync : Status;
  Close : Status
}.

(** [Env::NewWritableFile] yields a status and, on success, the file. *)
Record Env := {
  NewWritableFile : string -> Status * WritableFile
}.

(** [TableCache::NewIterator (ReadOptions(), number, size)] followed by
    [it->status()]. *)
Record TableCache := {
  NewIterator : N -> N -> Status
}.

(** What [BuildTable] links against but db/builder.cc does not define:
    [TableFileName] (db/filename.h), [ParseInternalKey] (db/dbformat.h) and
    the [TableBuilder] class.  [TableBuilder::Add] returns nothing, so all
    the driver ever observes of a builder is what [Finish] and [FileSize]
    answer after the sequence of [Add] calls made so far.  The boolean
    that [ParseInternalKey] returns is ignored by [BuildTable]; only the
    parsed key it fills in is used.  [NDEBUG] tells whether [assert] is
    compiled out. *)
Record Deps := {
  NDEBUG : bool;
  TableFileName : string -> N -> string;
  ParseInternalKey : Slice -> ParsedInternalKey;
  Finish : list (Slice * Slice) -> Status;
  FileSize : list (Slice * Slice) -> N
}.

(** ** Calls on the collaborators, in the order they are made *)

Inductive Event :=
| EvNewWritableFile (fname : string) (r : Status)
| EvAdd (key value : Slice)
| EvFinish (r : Status)
| EvAbandon
| EvDeleteBuilder
| EvFsync (r : Status)
| EvSync (r : Status)
| EvClose (r : Status)
| EvNewIterator (number size : N) (r : Status)
| EvDeleteFile (fname : string).

(** The four [assert]s of the function, by source line. *)
Inductive Assertion :=
| AssertFirstSeqno      (* line 60: prev_ikey.sequence >= earliest_seqno_in_memtable *)
| AssertThisSeqno       (* line 66: this_ikey.sequence >= earliest_seqno_in_memtable *)
| AssertSeqnoDecreasing (* line 77: this_ikey.sequence < prev_ikey.sequence *)
| AssertFileSize.       (* line 99: meta->file_size > 0 *)

Record State := {
  meta : FileMetaData;
  trace : list Event
}.

(** ** The monad: state, early [return], failed [assert] *)

Inductive Res (A : Type) :=
| Next (a : A) (st : State)               (* fall through to the next statement *)
| Return (s : Status) (st : State)        (* [return s;] *)
| Abort (which : Assertion) (st : State). (* a failed [assert] *)

Arguments Next {A} a st.
Arguments Return {A} s st.
Arguments Abort {A} which st.

Definition M (A : Type) := State -> Res A.

Definition ret {A} (a : A) : M A := fun st => Next a st.

Definition bind {A B} (m : M A) (k : A -> M B) : M B :=
  fun st =>
    match m st with
    | Next a st' => k a st'
    | Return s st' => Return s st'
    | Abort w st' => Abort w st'
    end.

Declare Scope build_scope.
Delimit Scope build_scope with build.
Notation "x <- m ;; k" := (bind m (fun x => k))
  (at level 61, m at next level, right associativity) : build_scope.
Notation "m ;; k" := (bind m (fun _ => k))
  (at level 61, right associativity) : build_scope.
Open Scope build_scope.

Definition return_ {A} (s : Status) : M A := fun st => Return s st.

Definition emit (e : Event) : M unit :=
  fun st => Next tt {| meta := meta st; trace := trace st ++ [e] |}.

Definition get_meta : M FileMetaData := fun st => Next (meta st) st.

Definition get_trace : M (list Event) := fun st => Next (trace st) st.

Definition update_meta (f : FileMetaData -> FileMetaData) : M unit :=
  fun st => Next tt {| meta := f (meta st); trace := trace st |}.

Definition set_file_size (n : N) : M unit :=
  update_meta (fun m => {| number := number m; file_size := n;
                           smallest := smallest m; largest := largest m |}).

Definition set_smallest (k : Slice) : M unit :=
  update_meta (fun m => {| number := number m; file_size := file_size m;
                           smallest := k; largest := largest m |}).

Definition set_largest (k : Slice) : M unit :=
  update_meta (fun m => {| number := number m; file_size := file_size m;
                           smallest := smallest m; largest := k |}).

(** [assert(cond)]: nothing under [NDEBUG], otherwise aborts when [cond]
    is false. *)
Definition assert (ndebug : bool) (cond : bool) (which : Assertion) : M unit :=
  fun st => if ndebug || cond then Next tt st else Abort which st.

(** The [Add] calls of a trace: the contents handed to the table builder. *)
Fixpoint adds_of (t : list Event) : list (Slice * Slice) :=
  match t with
  | [] => []
  | EvAdd k v :: t' => (k, v) :: adds_of t'
  | _ :: t' => adds_of t'
  end.

(** ** BuildTable *)

Section BuildTable.

Variable D : Deps.
Variable user_comparator : Comparator.
Variable earliest_seqno_in_memtable : SequenceNumber.

(** [builder->Add(key, value)]. *)
Definition Add (key value : Slice) : M unit := emit (EvAdd key value).

(** Lines 87-91: the loop of the branch without purge.  [it] is the part of
    the iterator not yet visited. *)
Fixpoint copy_loop (it : list (Slice * Slice)) : M unit :=
  match it with
  | [] => ret tt
  | (key, value) :: it' =>
      set_largest key ;;
      Add key value ;;
      copy_loop it'
  end.

(** Lines 62-81: the loop of the purge branch.  It returns [prev_key] and
    [prev_value] as they stand when the iterator is drained. *)
Fixpoint purge_loop (it : list (Slice * Slice))
    (prev_key prev_value : Slice) (prev_ikey : ParsedInternalKey)
    : M (Slice * Slice) :=
  match it with
  | [] => ret (prev_key, prev_value)
  | (key, value) :: it' =>
      let this_ikey := ParseInternalKey D key in
      assert (NDEBUG D)
             (earliest_seqno_in_memtable <=? sequence this_ikey)%N
             AssertThisSeqno ;;
      if negb (Compare user_comparator (user_key prev_ikey)
                       (user_key this_ikey) =? 0)%Z
      then
        Add prev_key prev_value ;;
        purge_loop it' key value (ParseInternalKey D key)
      else
        assert (NDEBUG D) (sequence this_ikey <? sequence prev_ikey)%N
               AssertSeqnoDecreasing ;;
        purge_loop it' prev_key prev_value prev_ikey
  end.

(** Lines 33-36. *)
Definition purge_decision (options : Options)
    (newest_snapshot : SequenceNumber) : bool :=
  let purge := purge_redundant_kvs_while_flush options in
  if (earliest_seqno_in_memtable <=? newest_snapshot)%N then false else purge.

(** Lines 51-92: the pass over the iterator, positioned on its first entry
    [(key, value)] with [rest] still to come. *)
Definition write_pass (purge : bool) (key value : Slice)
    (rest : list (Slice * Slice)) : M unit :=
  if purge then
    let prev_ikey := ParseInternalKey D key in
    assert (NDEBUG D)
           (earliest_seqno_in_memtable <=? sequence prev_ikey)%N
           AssertFirstSeqno ;;
    prev <- purge_loop rest key value prev_ikey ;;
    Add (fst prev) (snd prev) ;;
    set_largest (fst prev)
  else
    copy_loop ((key, value) :: rest).

(** Lines 94-125: finish or abandon the builder, sync, close, verify. *)
Definition finish_file (s : Status) (file : WritableFile) (options : Options)
    (table_cache : TableCache) : M Status :=
  s <- (if ok s then
          t <- get_trace ;;
          let s := Finish D (adds_of t) in
          emit (EvFinish s) ;;
          (if ok s then
             set_file_size (FileSize D (adds_of t)) ;;
             assert (NDEBUG D) (0 <? FileSize D (adds_of t))%N AssertFileSize
           else ret tt) ;;
          ret s
        else
          emit EvAbandon ;;
          ret s) ;;
  emit EvDeleteBuilder ;;
  s <- (if ok s && negb (disableDataSync options) then
          if use_fsync options then
            emit (EvFsync (Fsync file)) ;; ret (Fsync file)
          else
            emit (EvSync (Sync file)) ;; ret (Sync file)
        else ret s) ;;
  s <- (if ok s then
          emit (EvClose (Close file)) ;; ret (Close file)
        else ret s) ;;
  s <- (if ok s then
          m <- get_meta ;;
          let r := NewIterator table_cache (number m) (file_size m) in
          emit (EvNewIterator (number m) (file_size m) r) ;;
          ret r
        else ret s) ;;
  ret s.

(** Lines 39-126: the body of [if (iter->Valid())]. *)
Definition build_file (fname : string) (env : Env) (options : Options)
    (table_cache : TableCache) (purge : bool)
    (key value : Slice) (rest : list (Slice * Slice)) : M Status :=
  let (s, file) := NewWritableFile env fname in
  emit (EvNewWritableFile fname s) ;;
  if negb (ok s) then return_ s else
  set_smallest key ;;
  write_pass purge key value rest ;;
  finish_file s file options table_cache.

(** Lines 128-138: the input iterator's own status, then keep or delete. *)
Definition epilogue (fname : string) (iter : Iterator) (s : Status)
    : M Status :=
  let s := if negb (ok (status iter)) then status iter else s in
  m <- get_meta ;;
  (if ok s && (0 <? file_size m)%N then
     ret tt
   else
     emit (EvDeleteFile fname)) ;;
  ret s.

(** Lines 26-138, as a computation.  [iter->SeekToFirst()] positions the
    iterator on the head of [entries iter]; [iter->Valid()] is whether
    there is one. *)
Definition BuildTable_body (dbname : string) (env : Env) (options : Options)
    (table_cache : TableCache) (iter : Iterator)
    (newest_snapshot : SequenceNumber) : M Status :=
  let s := OK in
  set_file_size 0 ;;
  let purge := purge_decision options newest_snapshot in
  m <- get_meta ;;
  let fname := TableFileName D dbname (number m) in
  s <- (match entries iter with
        | (key, value) :: rest =>
            build_file fname env options table_cache purge key value rest
        | [] => ret s
        end) ;;
  epilogue fname iter s.

(** How a call ends: it returns a status, or an [assert] stops it. *)
Inductive Outcome :=
| Returned (s : Status) (st : State)
| Faulted (which : Assertion) (st : State).

Definition BuildTable (dbname : string) (env : Env) (options : Options)
    (table_cache : TableCache) (iter : Iterator) (meta0 : FileMetaData)
    (newest_snapshot : SequenceNumber) : Outcome :=
  match BuildTable_body dbname env options table_cache iter newest_snapshot
          {| meta := meta0; trace := [] |} with
  | Next s st => Returned s st
  | Return s st => Returned s st
  | Abort w st => Faulted w st
  end.

End BuildTable.

Definition outcome_state (o : Outcome) : State :=
  match o with Returned _ st => st | Faulted _ st => st end.

Definition returned_status (o : Outcome) : option Status :=
  match o with Returned s _ => Some s | Faulted _ _ => None end.

Definition res_state {A} (r : Res A) : State :=
  match r with Next _ st => st | Return _ st => st | Abort _ st => st end.

(** The state in which the pass starts, once the file is created. *)
Definition created_state (fname : string) (s0 : Status) (key : Slice)
    (meta0 : FileMetaData) : State :=
  {| meta := {| number := number meta0; file_size := 0;
                smallest := key; largest := largest meta0 |};
     trace := [EvNewWritableFile fname s0] |}.

(** ** Observations on a trace *)

Definition add_events (l : list (Slice * Slice)) : list Event :=
  map (fun e => EvAdd (fst e) (snd e)) l.

Definition with_largest (k : Slice) (m : FileMetaData) : FileMetaData :=
  {| number := number m; file_size := file_size m;
     smallest := smallest m; largest := k |}.

(** The sync calls of a trace, of either variant. *)
Fixpoint syncs_of (t : list Event) : list Event :=
  match t with
  | [] => []
  | EvFsync r :: t' => EvFsync r :: syncs_of t'
  | EvSync r :: t' => EvSync r :: syncs_of t'
  | _ :: t' => syncs_of t'
  end.

Fixpoint closes_of (t : list Event) : list Status :=
  match t with
  | [] => []
  | EvClose r :: t' => r :: closes_of t'
  | _ :: t' => closes_of t'
  end.

(** What follows the first [Close] of a trace. *)
Fixpoint after_close (t : list Event) : list Event :=
  match t with
  | [] => []
  | EvClose _ :: t' => t'
  | _ :: t' => after_close t'
  end.

Definition is_finish_ok (e : Event) : bool :=
  match e with EvFinish OK => true | _ => false end.

Definition is_finish_failed (e : Event) : bool :=
  match e with EvFinish r => negb (ok r) | _ => false end.

Definition is_delete (e : Event) : bool :=
  match e with EvDeleteFile _ => true | _ => false end.

Definition is_abandon (e : Event) : bool :=
  match e with EvAbandon => true | _ => false end.

(** Modelled from the spec: the environment "creates a writable file by
    name" and "deletes a file by name"; its code (leveldb/env.h and the
    platform file system under it) is not part of db/builder.cc.  A disk is
    the set of names present; a successful [NewWritableFile] makes the name
    present, a failed one changes nothing, [DeleteFile] makes it absent. *)
Definition Disk := string -> bool.

Definition disk_step (d : Disk) (e : Event) : Disk :=
  match e with
  | EvNewWritableFile f r =>
      if ok r then fun x => if String.eqb x f then true else d x else d
  | EvDeleteFile f => fun x => if String.eqb x f then false else d x
  | _ => d
  end.

Definition disk_after (d : Disk) (t : list Event) : Disk :=
  fold_left disk_step t d.

(** ** The specification's vocabulary for the purge pass *)

Section Runs.

Variable D : Deps.
Variable user_comparator : Comparator.

Definition entry_user_key (e : Slice * Slice) : Slice :=
  user_key (ParseInternalKey D (fst e)).

Definition entry_sequence (e : Slice * Slice) : SequenceNumber :=
  sequence (ParseInternalKey D (fst e)).

(** Two entries share a user key when the comparator says so. *)
Definition same_user_key (a b : Slice * Slice) : bool :=
  (Compare user_comparator (entry_user_key a) (entry_user_key b) =? 0)%Z.

(** A source is sorted when user keys ascend and, among neighbours sharing
    a user key, sequence numbers strictly descend. *)
Definition in_order (a b : Slice * Slice) : bool :=
  (Compare user_comparator (entry_user_key a) (entry_user_key b) <? 0)%Z
  || (same_user_key a b && (entry_sequence b <? entry_sequence a)%N).

Fixpoint sorted_source (l : list (Slice * Slice)) : bool :=
  match l with
  | a :: ((b :: _) as l') => in_order a b && sorted_source l'
  | _ => true
  end.

(** The maximal runs of consecutive entries sharing a user key, each as its
    first entry and the entries that follow it in the run. *)
Fixpoint runs (l : list (Slice * Slice))
    : list ((Slice * Slice) * list (Slice * Slice)) :=
  match l with
  | [] => []
  | e :: l' =>
      match runs l' with
      | (e', r) :: rs =>
          if same_user_key e e' then (e, e' :: r) :: rs
          else (e, []) :: (e', r) :: rs
      | [] => [(e, [])]
      end
  end.

(** The entry of a run with the maximum sequence number (the earliest such
    entry, should several carry it). *)
Fixpoint newest_from (best : Slice * Slice) (r : list (Slice * Slice))
    : Slice * Slice :=
  match r with
  | [] => best
  | e :: r' =>
      if (entry_sequence best <? entry_sequence e)%N then newest_from e r'
      else newest_from best r'
  end.

Definition newest (run : (Slice * Slice) * list (Slice * Slice))
    : Slice * Slice :=
  newest_from (fst run) (snd run).

(** The purge loop as a function on lists: from the pending entry and the
    entries still to come, the entries handed to the builder inside the
    loop and the entry left pending when the loop ends. *)
Fixpoint purge_split (it : list (Slice * Slice)) (prev : Slice * Slice)
    : list (Slice * Slice) * (Slice * Slice) :=
  match it with
  | [] => ([], prev)
  | this :: it' =>
      if same_user_key prev this then purge_split it' prev
      else let (w, p) := purge_split it' this in (prev :: w, p)
  end.

Definition purge_written (it : list (Slice * Slice)) (prev : Slice * Slice)
    : list (Slice * Slice) :=
  fst (purge_split it prev) ++ [snd (purge_split it prev)].

(** Whether every [assert] met by the purge loop holds. *)
Fixpoint purge_checks (earliest : SequenceNumber)
    (it : list (Slice * Slice)) (prev : Slice * Slice) : bool :=
  match it with
  | [] => true
  | this :: it' =>
      (earliest <=? entry_sequence this)%N &&
      (if same_user_key prev this
       then (entry_sequence this <? entry_sequence prev)%N &&
            purge_checks earliest it' prev
       else purge_checks earliest it' this)
  end.

(** What the comparator contract gives: comparing equal is an equivalence
    on user keys. *)
Definition comparator_equiv : Prop :=
  (forall a, Compare user_comparator a a = 0%Z) /\
  (forall a b, Compare user_comparator a b = 0%Z ->
               Compare user_comparator b a = 0%Z) /\
  (forall a b c, Compare user_comparator a b = 0%Z ->
                 Compare user_comparator b c = 0%Z ->
                 Compare user_comparator a c = 0%Z).

End Runs.

(** ** Further observations on traces and sources *)



Definition is_add (e : Event) : bool :=
  match e with EvAdd _ _ => true | _ => false end.

(** How many calls of a kind a trace holds. *)
Definition count (p : Event -> bool) (t : list Event) : nat :=
  List.length (filter p t).


(** The status a collaborator answered, for the calls that answer one. *)
Definition event_result (e : Event) : option Status :=
  match e with
  | EvNewWritableFile _ r | EvFinish r | EvFsync r | EvSync r | EvClose r
  | EvNewIterator _ _ r => Some r
  | EvAdd _ _ | EvAbandon | EvDeleteBuilder | EvDeleteFile _ => None
  end.

Definition failed (e : Event) : bool :=
  match event_result e with Some r => negb (ok r) | None => false end.

(** The two calls that only release or remove: [delete builder] and
    [DeleteFile]. *)
Definition is_cleanup (e : Event) : bool :=
  match e with EvDeleteBuilder | EvDeleteFile _ => true | _ => false end.

(** What follows the first failed call of a trace. *)
Fixpoint after_failure (t : list Event) : list Event :=
  match t with
  | [] => []
  | e :: t' => if failed e then t' else after_failure t'
  end.

(** The first status of a list that is not OK, or OK when all are. *)
Fixpoint first_failure (l : list Status) : Status :=
  match l with
  | [] => OK
  | s :: l' => if ok s then first_failure l' else s
  end.

(** [l1] is [l2] with some elements left out. *)
Inductive subsequence {A : Type} : list A -> list A -> Prop :=
| subsequence_nil : forall l, subsequence [] l
| subsequence_keep : forall x l1 l2,
    subsequence l1 l2 -> subsequence (x :: l1) (x :: l2)
| subsequence_skip : forall x l1 l2,
    subsequence l1 l2 -> subsequence l1 (x :: l2).

Section Adjacent.

Variable D : Deps.
Variable user_comparator : Comparator.

(** No two neighbours of the list share a user key. *)
Fixpoint no_adjacent_same (l : list (Slice * Slice)) : bool :=
  match l with
  | a :: ((b :: _) as l') =>
      negb (same_user_key D user_comparator a b) && no_adjacent_same l'
  | _ => true
  end.

End Adjacent.

(** The same dependencies with another key parser. *)
Definition with_parser (D : Deps) (parse : Slice -> ParsedInternalKey)
    : Deps :=
  {| NDEBUG := NDEBUG D;
     TableFileName := TableFileName D;
     ParseInternalKey := parse;
     Finish := Finish D;
     FileSize := FileSize D |}.

(** ** A concrete instance, for running the model *)

Module Sample.

(** Modelled from the spec: an internal key is "a user key plus a sequence
    number and operation kind"; db/dbformat.h, which fixes the layout, is
    not part of db/builder.cc.  Here the user key is followed by eight
    bytes holding [sequence * 256 + kind], least significant byte first. *)
Fixpoint encode_fixed (n : nat) (x : N) : string :=
  match n with
  | O => EmptyString
  | S n' => String (ascii_of_N (x mod 256)) (encode_fixed n' (x / 256))
  end.

Fixpoint decode_fixed (s : string) : N :=
  match s with
  | EmptyString => 0
  | String c s' => N_of_ascii c + 256 * decode_fixed s'
  end.

Definition kind_byte (t : ValueType) : N :=
  match t with kTypeDeletion => 0 | kTypeValue => 1 end.

Definition ikey (uk : string) (seq : N) (t : ValueType) : Slice :=
  (uk ++ encode_fixed 8 (seq * 256 + kind_byte t))%string.

Definition parse (k : Slice) : ParsedInternalKey :=
  let n := String.length k in
  let tag := decode_fixed (substring (n - 8) 8 k) in
  {| user_key := substring 0 (n - 8) k;
     sequence := (tag / 256)%N;
     type := if (tag mod 256 =? 0)%N then kTypeDeletion else kTypeValue |}.

(** The bytewise comparator. *)
Definition bytewise : Comparator :=
  {| Compare := fun a b =>
       match String.compare a b with Lt => (-1)%Z | Eq => 0%Z | Gt => 1%Z end |}.

Definition file_name (dbname : string) (number : N) : string :=
  (dbname ++ "/" ++ encode_fixed 1 (48 + number mod 10) ++ ".sst")%string.

(** A table builder that accepts everything and reports 100 bytes per
    entry plus a 48-byte footer. *)
Definition deps (ndebug : bool) : Deps :=
  {| NDEBUG := ndebug;
     TableFileName := file_name;
     ParseInternalKey := parse;
     Finish := fun _ => OK;
     FileSize := fun adds => (48 + 100 * N.of_nat (List.length adds))%N |}.

(** A table builder whose underlying writes fail: [Finish] reports the
    error, and no size is ever recorded. *)
Definition failing_deps (ndebug : bool) : Deps :=
  {| NDEBUG := ndebug;
     TableFileName := file_name;
     ParseInternalKey := parse;
     Finish := fun _ => Error kIOError "write failed"%string;
     FileSize := fun _ => 0%N |}.

Definition good_file : WritableFile :=
  {| Fsync := OK; Sync := OK; Close := OK |}.

Definition env_ok : Env :=
  {| NewWritableFile := fun _ => (OK, good_file) |}.

Definition env_with (f : WritableFile) : Env :=
  {| NewWritableFile := fun _ => (OK, f) |}.

Definition env_fail : Env :=
  {| NewWritableFile := fun _ => (Error kIOError "cannot create"%string, good_file) |}.

Definition cache_ok : TableCache := {| NewIterator := fun _ _ => OK |}.

Definition cache_corrupt : TableCache :=
  {| NewIterator := fun _ _ => Error kCorruption "bad block"%string |}.

Definition meta0 : FileMetaData :=
  {| number := 7; file_size := 0; smallest := EmptyString; largest := EmptyString |}.

Definition opts (purge nosync fsync : bool) : Options :=
  {| purge_redundant_kvs_while_flush := purge;
     disableDataSync := nosync;
     use_fsync := fsync |}.

(** The three entries of the specification's examples 1 and 2. *)
Definition a5 : Slice * Slice := (ikey "a"%string 5 kTypeValue, "v1"%string).
Definition a3 : Slice * Slice := (ikey "a"%string 3 kTypeValue, "v0"%string).
Definition b4 : Slice * Slice := (ikey "b"%string 4 kTypeValue, "v2"%string).

Definition source (l : list (Slice * Slice)) : Iterator :=
  {| entries := l; status := OK |}.

Definition broken_source (l : list (Slice * Slice)) : Iterator :=
  {| entries := l; status := Error kCorruption "truncated record"%string |}.

Definition three : Iterator := source [a5; a3; b4].

Definition purge_on : Options := opts true false false.

Definition purge_off : Options := opts false false false.

(** A file whose light sync fails. *)
Definition sync_fails : WritableFile :=
  {| Fsync := OK; Sync := Error kIOError "disk full"%string; Close := OK |}.

Definition empty_disk : Disk := fun _ => false.

(** A disk that already holds a file under the name of table 7. *)
Definition stale_disk : Disk := fun x => String.eqb x (file_name "db" 7).

(** A parser and a comparator that tell nothing apart. *)
Definition blind_parse (k : Slice) : ParsedInternalKey :=
  {| user_key := EmptyString; sequence := 0%N; type := kTypeValue |}.

Definition blind : Comparator := {| Compare := fun _ _ => 0%Z |}.

End Sample.

(** ** Proof steps used throughout *)

Ltac unfold_monad :=
  unfold bind, ret, return_, emit, Add, get_meta, get_trace, set_file_size,
    set_smallest, set_largest, update_meta, assert in *.

Ltac split_ifs :=
  repeat match goal with
         | |- context [if ?b then _ else _] => destruct b eqn:?; simpl
         end.

(** ** Basic facts about traces *)

Lemma adds_of_app (t1 t2 : list Event) :
  adds_of (t1 ++ t2) = adds_of t1 ++ adds_of t2.
Proof.
  induction t1 as [|e t1 IH]; simpl; [reflexivity|].
  destruct e; simpl; rewrite ?IH; reflexivity.
Qed.

Lemma syncs_of_app (t1 t2 : list Event) :
  syncs_of (t1 ++ t2) = syncs_of t1 ++ syncs_of t2.
Proof.
  induction t1 as [|e t1 IH]; simpl; [reflexivity|].
  destruct e; simpl; rewrite ?IH; reflexivity.
Qed.

Lemma closes_of_app (t1 t2 : list Event) :
  closes_of (t1 ++ t2) = closes_of t1 ++ closes_of t2.
Proof.
  induction t1 as [|e t1 IH]; simpl; [reflexivity|].
  destruct e; simpl; rewrite ?IH; reflexivity.
Qed.

Lemma adds_of_add_events (l : list (Slice * Slice)) :
  adds_of (add_events l) = l.
Proof.
  induction l as [|[k v] l IH]; simpl; [reflexivity|].
  now rewrite IH.
Qed.

Lemma syncs_of_add_events (l : list (Slice * Slice)) :
  syncs_of (add_events l) = [].
Proof. induction l as [|[k v] l IH]; simpl; auto. Qed.

Lemma closes_of_add_events (l : list (Slice * Slice)) :
  closes_of (add_events l) = [].
Proof. induction l as [|[k v] l IH]; simpl; auto. Qed.

Lemma after_close_app (t1 t2 : list Event) :
  closes_of t1 = [] -> after_close (t1 ++ t2) = after_close t2.
Proof.
  induction t1 as [|e t1 IH]; simpl; [reflexivity|].
  destruct e; simpl; auto; discriminate.
Qed.

Lemma after_close_split (t1 t2 : list Event) (r : Status) :
  closes_of t1 = [] -> after_close (t1 ++ EvClose r :: t2) = t2.
Proof. intros H. now rewrite after_close_app. Qed.

Lemma In_add_events (e : Event) (l : list (Slice * Slice)) :
  In e (add_events l) -> exists k v, e = EvAdd k v.
Proof.
  unfold add_events. rewrite in_map_iff. intros ([k v] & He & _).
  simpl in He. eauto.
Qed.

Lemma no_sync_after_close (t : list Event) :
  (List.length (closes_of t) <= 1)%nat ->
  syncs_of (after_close t) = [] ->
  forall t1 r t2, t = t1 ++ EvClose r :: t2 -> syncs_of t2 = [].
Proof.
  intros Hlen Hsync t1 r t2 Ht. subst t.
  rewrite closes_of_app in Hlen. simpl in Hlen.
  rewrite length_app in Hlen. simpl in Hlen.
  destruct (closes_of t1) eqn:Hc1; [|simpl in Hlen; lia].
  now rewrite after_close_split in Hsync.
Qed.

Lemma last_app_cons {A} (l1 l2 : list A) (x d : A) :
  last (l1 ++ x :: l2) d = last (x :: l2) d.
Proof.
  induction l1 as [|y l1 IH]; [reflexivity|].
  simpl app. rewrite <- IH.
  destruct (l1 ++ x :: l2) eqn:E; [|reflexivity].
  destruct l1; discriminate.
Qed.

Lemma adds_of_created (f : string) (s : Status) (l : list (Slice * Slice))
    (t : list Event) :
  adds_of (EvNewWritableFile f s :: add_events l ++ t) = l ++ adds_of t.
Proof.
  simpl. now rewrite adds_of_app, adds_of_add_events.
Qed.

Lemma last_created (e : Event) (l : list (Slice * Slice)) (x : Event)
    (t : list Event) (d : Event) :
  last (e :: add_events l ++ x :: t) d = last (x :: t) d.
Proof. rewrite app_comm_cons. apply last_app_cons. Qed.

Lemma existsb_created (p : Event -> bool) (f : string) (s : Status)
    (l : list (Slice * Slice)) (t : list Event) :
  (forall k v, p (EvAdd k v) = false) ->
  p (EvNewWritableFile f s) = false ->
  existsb p (EvNewWritableFile f s :: add_events l ++ t) = existsb p t.
Proof.
  intros Ha Hn. simpl. rewrite Hn, existsb_app. simpl.
  induction l as [|[k v] l IH]; simpl; [reflexivity|].
  now rewrite Ha.
Qed.

Lemma disk_after_app (d : Disk) (t1 t2 : list Event) :
  disk_after d (t1 ++ t2) = disk_after (disk_after d t1) t2.
Proof. apply fold_left_app. Qed.

(** A trace that ends with the deletion of a name leaves it absent. *)
Lemma disk_after_last_delete (d : Disk) (t : list Event) (f : string) :
  last t EvDeleteBuilder = EvDeleteFile f -> disk_after d t f = false.
Proof.
  destruct t as [|e t] using rev_ind; [discriminate|].
  rewrite last_last. intros ->. rewrite disk_after_app. simpl.
  now rewrite String.eqb_refl.
Qed.

Lemma existsb_add_events (p : Event -> bool) (l : list (Slice * Slice)) :
  (forall k v, p (EvAdd k v) = false) -> existsb p (add_events l) = false.
Proof.
  intros Hp. induction l as [|[k v] l IH]; simpl; [reflexivity|].
  now rewrite Hp, IH.
Qed.

Lemma last_nonempty {A} (x : A) (l : list A) (d d' : A) :
  last (x :: l) d = last (x :: l) d'.
Proof.
  revert x. induction l as [|y l IH]; intros x; [reflexivity|].
  change (last (y :: l) d = last (y :: l) d'). apply IH.
Qed.

(** ** The pass without purge *)

Section Facts.

Variable D : Deps.
Variable user_comparator : Comparator.
Variable earliest_seqno_in_memtable : SequenceNumber.

Lemma copy_loop_run (it : list (Slice * Slice)) (st : State) :
  copy_loop it st =
  Next tt {| meta := fold_left (fun m e => with_largest (fst e) m) it (meta st);
             trace := trace st ++ add_events it |}.
Proof.
  revert st. induction it as [|[k v] it IH]; intros st.
  - simpl. unfold ret. rewrite app_nil_r. now destruct st.
  - simpl. unfold bind, set_largest, update_meta, Add, emit. simpl.
    rewrite IH. simpl. rewrite <- app_assoc. reflexivity.
Qed.

Lemma fold_largest_frame (it : list (Slice * Slice)) (m : FileMetaData) :
  let m' := fold_left (fun m e => with_largest (fst e) m) it m in
  number m' = number m /\ file_size m' = file_size m /\
  smallest m' = smallest m.
Proof.
  revert m. induction it as [|e it IH]; intros m; simpl; [auto|].
  destruct (IH (with_largest (fst e) m)) as (H1 & H2 & H3).
  simpl in *. auto.
Qed.

Lemma fold_largest_last (it : list (Slice * Slice)) (m : FileMetaData)
    (e0 : Slice * Slice) :
  largest (fold_left (fun m e => with_largest (fst e) m) (e0 :: it) m) =
  fst (last (e0 :: it) e0).
Proof.
  revert m e0. induction it as [|e it IH]; intros m e0; [reflexivity|].
  change (fold_left _ (e0 :: e :: it) m)
    with (fold_left (fun m e => with_largest (fst e) m) (e :: it)
                    (with_largest (fst e0) m)).
  rewrite IH. change (last (e0 :: e :: it) e0) with (last (e :: it) e0).
  f_equal. apply last_nonempty.
Qed.

End Facts.

(** ** The stages after the pass *)

Section Stages.

Variable D : Deps.

Lemma epilogue_run (fname : string) (iter : Iterator) (s : Status)
    (st : State) :
  epilogue fname iter s st =
  let s' := if ok (status iter) then s else status iter in
  Next s' {| meta := meta st;
             trace := trace st ++
                      (if ok s' && (0 <? file_size (meta st))%N then []
                       else [EvDeleteFile fname]) |}.
Proof.
  unfold epilogue. unfold_monad. simpl.
  destruct (ok (status iter)); simpl;
    match goal with
    | |- context [ok ?x && ?y] => destruct (ok x && y)
    end; simpl; rewrite ?app_nil_r; destruct st; reflexivity.
Qed.

(** The stages after the pass issue no [Add] and touch only [file_size]. *)
Lemma finish_file_frame (s : Status) (file : WritableFile)
    (options : Options) (table_cache : TableCache) (st : State) :
  let st' := res_state (finish_file D s file options table_cache st) in
  adds_of (trace st') = adds_of (trace st) /\
  number (meta st') = number (meta st) /\
  smallest (meta st') = smallest (meta st) /\
  largest (meta st') = largest (meta st).
Proof.
  unfold finish_file. unfold_monad. simpl.
  split_ifs; rewrite ?adds_of_app; simpl; rewrite ?app_nil_r; auto.
Qed.

(** The stages after the pass, outcome by outcome, when the status they
    start from is OK. *)
Lemma finish_file_cases (s0 : Status) (file : WritableFile)
    (options : Options) (table_cache : TableCache) (st : State) :
  ok s0 = true ->
  let adds := adds_of (trace st) in
  let f := Finish D adds in
  let m := {| number := number (meta st); file_size := FileSize D adds;
              smallest := smallest (meta st);
              largest := largest (meta st) |} in
  let sync := if use_fsync options then Fsync file else Sync file in
  let sync_ev := if use_fsync options then EvFsync (Fsync file)
                 else EvSync (Sync file) in
  let s1 := if disableDataSync options then f else sync in
  let s2 := if ok s1 then Close file else s1 in
  let v := NewIterator table_cache (number (meta st)) (FileSize D adds) in
  let s3 := if ok s2 then v else s2 in
  finish_file D s0 file options table_cache st =
  if ok f then
    if NDEBUG D || (0 <? FileSize D adds)%N then
      Next s3
        {| meta := m;
           trace := trace st ++ [EvFinish f; EvDeleteBuilder] ++
                    (if disableDataSync options then [] else [sync_ev]) ++
                    (if ok s1 then [EvClose (Close file)] else []) ++
                    (if ok s2
                     then [EvNewIterator (number (meta st))
                                         (FileSize D adds) v]
                     else []) |}
    else
      Abort AssertFileSize {| meta := m; trace := trace st ++ [EvFinish f] |}
  else
    Next f {| meta := meta st;
              trace := trace st ++ [EvFinish f; EvDeleteBuilder] |}.
Proof.
  intros Hs0. cbv zeta. unfold finish_file. rewrite Hs0. unfold_monad. simpl.
  destruct (ok (Finish D (adds_of (trace st)))) eqn:Hf; simpl.
  - destruct (NDEBUG D || _); simpl; [|reflexivity].
    rewrite Hf. simpl.
    destruct (disableDataSync options); simpl.
    + rewrite Hf. simpl. destruct (ok (Close file)) eqn:Hc; simpl;
        rewrite ?Hc; simpl; rewrite <- ?app_assoc; reflexivity.
    + destruct (use_fsync options); simpl.
      * destruct (ok (Fsync file)) eqn:Hy; simpl; rewrite ?Hy; simpl;
          [destruct (ok (Close file)) eqn:Hc; simpl; rewrite ?Hc; simpl|];
          rewrite <- ?app_assoc; reflexivity.
      * destruct (ok (Sync file)) eqn:Hy; simpl; rewrite ?Hy; simpl;
          [destruct (ok (Close file)) eqn:Hc; simpl; rewrite ?Hc; simpl|];
          rewrite <- ?app_assoc; reflexivity.
  - rewrite Hf. simpl. rewrite Hf. simpl. rewrite Hf. simpl.
    rewrite <- ?app_assoc. destruct st; reflexivity.
Qed.

(** The builder is finished, never abandoned, whenever the output file was
    created. *)
Lemma finish_file_never_abandons (s0 : Status) (file : WritableFile)
    (options : Options) (table_cache : TableCache) (st : State) :
  ok s0 = true ->
  existsb is_abandon (trace st) = false ->
  existsb is_abandon
    (trace (res_state (finish_file D s0 file options table_cache st))) = false.
Proof.
  intros Hs0 Hst. rewrite finish_file_cases by assumption.
  repeat match goal with
         | |- context [if ?b then _ else _] => destruct b; simpl
         end; rewrite ?existsb_app, Hst; reflexivity.
Qed.

End Stages.

(** ** BuildTable, stage by stage *)

Section Driver.

Variable D : Deps.
Variable user_comparator : Comparator.
Variable earliest_seqno_in_memtable : SequenceNumber.

Local Abbreviation build :=
  (BuildTable D user_comparator earliest_seqno_in_memtable).

Lemma BuildTable_empty (dbname : string) (env : Env) (options : Options)
    (table_cache : TableCache) (iter : Iterator) (meta0 : FileMetaData)
    (newest_snapshot : SequenceNumber) :
  entries iter = [] ->
  build dbname env options table_cache iter meta0 newest_snapshot =
  Returned (status iter)
    {| meta := {| number := number meta0; file_size := 0;
                  smallest := smallest meta0; largest := largest meta0 |};
       trace := [EvDeleteFile (TableFileName D dbname (number meta0))] |}.
Proof.
  intros He. unfold BuildTable, BuildTable_body.
  rewrite He. unfold bind at 1. simpl. unfold bind at 1. simpl.
  unfold bind at 1. simpl. rewrite epilogue_run. simpl.
  rewrite andb_false_r. destruct (status iter); reflexivity.
Qed.

Lemma BuildTable_creation_failed (dbname : string) (env : Env)
    (options : Options) (table_cache : TableCache) (iter : Iterator)
    (meta0 : FileMetaData) (newest_snapshot : SequenceNumber) :
  let fname := TableFileName D dbname (number meta0) in
  entries iter <> [] ->
  ok (fst (NewWritableFile env fname)) = false ->
  build dbname env options table_cache iter meta0 newest_snapshot =
  Returned (fst (NewWritableFile env fname))
    {| meta := {| number := number meta0; file_size := 0;
                  smallest := smallest meta0; largest := largest meta0 |};
       trace := [EvNewWritableFile fname (fst (NewWritableFile env fname))] |}.
Proof.
  intros fname He Hs. unfold BuildTable, BuildTable_body.
  destruct (entries iter) as [|[key value] rest]; [congruence|].
  unfold bind at 1. simpl. unfold bind at 1. simpl.
  unfold bind at 1. unfold build_file. simpl. fold fname.
  destruct (NewWritableFile env fname) as [s0 file]. simpl in *.
  unfold bind at 1. simpl. rewrite Hs. reflexivity.
Qed.

Lemma BuildTable_created (dbname : string) (env : Env) (options : Options)
    (table_cache : TableCache) (iter : Iterator) (meta0 : FileMetaData)
    (newest_snapshot : SequenceNumber) (key value : Slice)
    (rest : list (Slice * Slice)) :
  let fname := TableFileName D dbname (number meta0) in
  let s0 := fst (NewWritableFile env fname) in
  let file := snd (NewWritableFile env fname) in
  let purge := purge_decision earliest_seqno_in_memtable options
                              newest_snapshot in
  entries iter = (key, value) :: rest ->
  ok s0 = true ->
  build dbname env options table_cache iter meta0 newest_snapshot =
  match write_pass D user_comparator earliest_seqno_in_memtable
                   purge key value rest
                   (created_state fname s0 key meta0) with
  | Next _ st2 =>
      match finish_file D s0 file options table_cache st2 with
      | Next s st3 =>
          let s' := if ok (status iter) then s else status iter in
          Returned s'
            {| meta := meta st3;
               trace := trace st3 ++
                        (if ok s' && (0 <? file_size (meta st3))%N then []
                         else [EvDeleteFile fname]) |}
      | Return s st3 => Returned s st3
      | Abort w st3 => Faulted w st3
      end
  | Return s st2 => Returned s st2
  | Abort w st2 => Faulted w st2
  end.
Proof.
  intros fname s0 file purge He Hs. unfold BuildTable, BuildTable_body.
  rewrite He.
  unfold bind at 1. simpl. unfold bind at 1. simpl.
  unfold bind at 1. unfold build_file. simpl. fold fname.
  subst s0 file. destruct (NewWritableFile env fname) as [s0 file].
  simpl in *.
  unfold bind at 1. simpl. rewrite Hs. simpl.
  unfold bind at 1. simpl. unfold bind at 1. fold purge.
  unfold created_state.
  destruct (write_pass _ _ _ _ _ _ _ _) as [u st2|s st2|w st2];
    [|reflexivity|reflexivity].
  destruct (finish_file D s0 file options table_cache st2) as [s st3|s st3|w st3];
    [|reflexivity|reflexivity].
  rewrite epilogue_run. reflexivity.
Qed.

End Driver.

(** ** The purge pass *)

Section Purge.

Variable D : Deps.
Variable user_comparator : Comparator.
Variable earliest_seqno_in_memtable : SequenceNumber.

Local Abbreviation same := (same_user_key D user_comparator).
Local Abbreviation seq_of := (entry_sequence D).
Local Abbreviation written := (purge_written D user_comparator).
Local Abbreviation split_at := (purge_split D user_comparator).
Local Abbreviation checks := (purge_checks D user_comparator earliest_seqno_in_memtable).

Lemma purge_written_nil (prev : Slice * Slice) : written [] prev = [prev].
Proof. reflexivity. Qed.

Lemma purge_written_cons (this prev : Slice * Slice)
    (it : list (Slice * Slice)) :
  written (this :: it) prev =
  if same prev this then written it prev else prev :: written it this.
Proof.
  unfold purge_written. simpl. destruct (same prev this); [reflexivity|].
  destruct (split_at it this) as [w p]. reflexivity.
Qed.

(** The loop, when no [assert] stops it, performs [purge_split]. *)
Lemma purge_loop_run (it : list (Slice * Slice)) (prev_key prev_value : Slice)
    (st : State) :
  NDEBUG D = true \/ checks it (prev_key, prev_value) = true ->
  purge_loop D user_comparator earliest_seqno_in_memtable it
             prev_key prev_value (ParseInternalKey D prev_key) st =
  Next (snd (split_at it (prev_key, prev_value)))
       {| meta := meta st;
          trace := trace st ++
                   add_events (fst (split_at it (prev_key, prev_value))) |}.
Proof.
  revert prev_key prev_value st.
  induction it as [|[key value] it IH]; intros pk pv st Hc.
  - simpl. unfold ret. rewrite app_nil_r. now destruct st.
  - simpl. unfold bind at 1. unfold assert.
    assert (H1 : NDEBUG D || (earliest_seqno_in_memtable <=?
                              sequence (ParseInternalKey D key))%N = true).
    { destruct Hc as [Hc|Hc]; [now rewrite Hc|].
      simpl in Hc. apply andb_prop in Hc. destruct Hc as [Hc _].
      unfold entry_sequence in Hc. simpl in Hc. rewrite Hc.
      apply orb_true_r. }
    rewrite H1.
    unfold same_user_key, entry_user_key. simpl.
    destruct (Compare user_comparator (user_key (ParseInternalKey D pk))
                (user_key (ParseInternalKey D key)) =? 0)%Z eqn:Hcmp; simpl.
    + unfold bind at 1.
      assert (H2 : NDEBUG D || (sequence (ParseInternalKey D key) <?
                                sequence (ParseInternalKey D pk))%N = true).
      { destruct Hc as [Hc|Hc]; [now rewrite Hc|].
        simpl in Hc. unfold same_user_key, entry_user_key in Hc.
        simpl in Hc. rewrite Hcmp in Hc.
        apply andb_prop in Hc. destruct Hc as [_ Hc].
        apply andb_prop in Hc. destruct Hc as [Hc _].
        unfold entry_sequence in Hc. simpl in Hc. rewrite Hc.
        apply orb_true_r. }
      rewrite H2. apply IH.
      destruct Hc as [Hc|Hc]; [now left|right].
      simpl in Hc. unfold same_user_key, entry_user_key in Hc.
      simpl in Hc. rewrite Hcmp in Hc.
      apply andb_prop in Hc. destruct Hc as [_ Hc].
      apply andb_prop in Hc. now destruct Hc.
    + unfold bind at 1. unfold Add, emit. rewrite IH.
      * destruct (split_at it (key, value)) as [w p]. simpl.
        rewrite <- app_assoc. reflexivity.
      * destruct Hc as [Hc|Hc]; [now left|right].
        simpl in Hc. unfold same_user_key, entry_user_key in Hc.
        simpl in Hc. rewrite Hcmp in Hc.
        apply andb_prop in Hc. now destruct Hc.
Qed.

(** Only two of the asserts can stop the loop. *)
Lemma purge_loop_faults_which (it : list (Slice * Slice))
    (prev_key prev_value : Slice) (st : State) (w : Assertion)
    (st' : State) :
  purge_loop D user_comparator earliest_seqno_in_memtable it
             prev_key prev_value (ParseInternalKey D prev_key) st =
  Abort w st' ->
  w = AssertThisSeqno \/ w = AssertSeqnoDecreasing.
Proof.
  revert prev_key prev_value st.
  induction it as [|[key value] it IH]; intros pk pv st; simpl.
  - discriminate.
  - unfold bind at 1. unfold assert.
    destruct (NDEBUG D || _); simpl;
      [|intros H; inversion H; auto].
    destruct (negb _); simpl.
    + unfold bind at 1. unfold Add, emit. apply IH.
    + unfold bind at 1.
      destruct (NDEBUG D || _); simpl;
        [|intros H; inversion H; auto].
      apply IH.
Qed.

(** With asserts compiled in, a failing check stops the loop. *)
Lemma purge_loop_faults (it : list (Slice * Slice))
    (prev_key prev_value : Slice) (st : State) :
  NDEBUG D = false ->
  checks it (prev_key, prev_value) = false ->
  exists w st',
    purge_loop D user_comparator earliest_seqno_in_memtable it
               prev_key prev_value (ParseInternalKey D prev_key) st =
    Abort w st' /\
    (w = AssertThisSeqno \/ w = AssertSeqnoDecreasing).
Proof.
  intros Hn. revert prev_key prev_value st.
  induction it as [|[key value] it IH]; intros pk pv st Hc.
  - discriminate.
  - simpl in *. unfold bind at 1. unfold assert. rewrite Hn. simpl.
    unfold entry_sequence, same_user_key, entry_user_key in Hc. simpl in Hc.
    destruct (earliest_seqno_in_memtable <=?
              sequence (ParseInternalKey D key))%N; simpl in *.
    + destruct (Compare user_comparator (user_key (ParseInternalKey D pk))
                  (user_key (ParseInternalKey D key)) =? 0)%Z; simpl.
      * unfold bind at 1.
        destruct (sequence (ParseInternalKey D key) <?
                  sequence (ParseInternalKey D pk))%N; simpl in *.
        -- apply IH. exact Hc.
        -- eauto.
      * unfold bind at 1. unfold Add, emit. apply IH. exact Hc.
    + eauto.
Qed.

(** Whatever the outcome, the loop only ever issues [Add] calls and leaves
    the metadata alone; it never executes a [return]; an [assert] can only
    stop it when asserts are compiled in; and the first entry it hands
    over, if any, is the one that was pending when it started. *)
Lemma purge_loop_trace (it : list (Slice * Slice))
    (prev_key prev_value : Slice) (prev_ikey : ParsedInternalKey)
    (st : State) :
  let r := purge_loop D user_comparator earliest_seqno_in_memtable it
                      prev_key prev_value prev_ikey st in
  (exists l, trace (res_state r) = trace st ++ add_events l /\
             forall p st', r = Next p st' ->
                           hd p l = (prev_key, prev_value)) /\
  meta (res_state r) = meta st /\
  (forall s st', r <> Return s st') /\
  (forall w st', r = Abort w st' -> NDEBUG D = false).
Proof.
  revert prev_key prev_value prev_ikey st.
  induction it as [|[key value] it IH]; intros pk pv pik st.
  - simpl. split; [exists []; split; [now rewrite app_nil_r|]|].
    + intros p st' H. inversion H. reflexivity.
    + repeat split; discriminate.
  - simpl. unfold bind at 1. unfold assert.
    destruct (NDEBUG D) eqn:Hn; simpl.
    + destruct (negb _); simpl.
      * unfold bind at 1. unfold Add, emit.
        match goal with
        | |- context [purge_loop _ _ _ it ?a ?b ?c ?d] =>
            destruct (IH a b c d) as ((l & Hl & Hh) & Hm & Hr & Ha)
        end.
        simpl in *. split; [|repeat split; assumption].
        exists ((pk, pv) :: l). rewrite Hl, <- app_assoc.
        split; reflexivity.
      * unfold bind at 1. simpl. apply IH.
    + destruct (earliest_seqno_in_memtable <=? _)%N; simpl;
        [|split; [exists []; split; [now rewrite app_nil_r|discriminate]|];
          repeat split; discriminate].
      destruct (negb _); simpl.
      * unfold bind at 1. unfold Add, emit.
        match goal with
        | |- context [purge_loop _ _ _ it ?a ?b ?c ?d] =>
            destruct (IH a b c d) as ((l & Hl & Hh) & Hm & Hr & Ha)
        end.
        simpl in *. split; [|repeat split; assumption].
        exists ((pk, pv) :: l). rewrite Hl, <- app_assoc.
        split; reflexivity.
      * unfold bind at 1.
        destruct (_ <? _)%N; simpl;
          [|split; [exists []; split; [now rewrite app_nil_r|discriminate]|];
            repeat split; discriminate].
        apply IH.
Qed.

(** The pass as a whole: it only issues [Add] calls, leaves [number] and
    [file_size] alone and never returns; when it completes, at least one
    entry was handed over, the first of them is the first entry of the
    source, [largest] is the key of the last of them and [smallest] is
    untouched. *)
Lemma write_pass_trace (purge : bool) (key value : Slice)
    (rest : list (Slice * Slice)) (st : State) :
  let r := write_pass D user_comparator earliest_seqno_in_memtable purge
                      key value rest st in
  (exists l, trace (res_state r) = trace st ++ add_events l /\
             forall u st', r = Next u st' ->
               hd (key, value) l = (key, value) /\
               l <> [] /\
               largest (meta st') = fst (last l (key, value)) /\
               smallest (meta st') = smallest (meta st)) /\
  number (meta (res_state r)) = number (meta st) /\
  file_size (meta (res_state r)) = file_size (meta st) /\
  (forall s st', r <> Return s st') /\
  (forall w st', r = Abort w st' -> NDEBUG D = false /\ w <> AssertFileSize).
Proof.
  cbv zeta. unfold write_pass. destruct purge.
  - unfold bind, assert.
    destruct (NDEBUG D || _) eqn:Hchk; simpl.
    2:{ split; [exists []; split; [now rewrite app_nil_r|discriminate]|].
        repeat split; try discriminate.
        - apply orb_false_elim in Hchk. tauto.
        - inversion H. discriminate. }
    match goal with
    | |- context [purge_loop _ _ _ rest ?a ?b ?c ?d] =>
        destruct (purge_loop_trace rest a b c d)
          as ((l & Hl & Hh) & Hm & Hr & Ha);
        destruct (purge_loop D user_comparator earliest_seqno_in_memtable
                             rest a b c d) as [p st'|s st'|w st'] eqn:Hloop
    end; simpl in *.
    + unfold set_largest, update_meta. simpl.
      rewrite Hm. split; [|repeat split; discriminate].
      exists (l ++ [p]). rewrite Hl. unfold add_events.
      rewrite map_app, <- app_assoc. split; [reflexivity|].
      intros u st'' H. inversion H; subst; clear H. simpl.
      specialize (Hh p st' eq_refl).
      rewrite last_last.
      repeat split; auto.
      * destruct l; simpl in *; auto.
      * destruct l; discriminate.
    + exfalso. eapply Hr. reflexivity.
    + rewrite Hm. split; [exists l; split; [assumption|discriminate]|].
      repeat split; try discriminate.
      * eapply Ha. reflexivity.
      * inversion H; subst.
        pose proof (purge_loop_faults_which rest key value st Hloop) as Hw.
        destruct Hw; subst; discriminate.
  - rewrite copy_loop_run. simpl.
    destruct (fold_largest_frame rest (with_largest key (meta st)))
      as (H1 & H2 & H3).
    simpl in *. rewrite H1, H2.
    split; [|repeat split; discriminate].
    exists ((key, value) :: rest). split; [reflexivity|].
    intros u st' H. inversion H; subst; clear H. simpl.
    split; [reflexivity|]. split; [discriminate|].
    split; [|exact H3].
    exact (fold_largest_last rest (meta st) (key, value)).
Qed.

(** Lines 51-84 as a whole. *)
Lemma write_pass_purge_run (key value : Slice) (rest : list (Slice * Slice))
    (st : State) :
  NDEBUG D = true \/
  ((earliest_seqno_in_memtable <=? seq_of (key, value))%N = true /\
   checks rest (key, value) = true) ->
  write_pass D user_comparator earliest_seqno_in_memtable true
             key value rest st =
  Next tt {| meta := with_largest (fst (snd (split_at rest (key, value))))
                                  (meta st);
             trace := trace st ++ add_events (written rest (key, value)) |}.
Proof.
  intros Hc. unfold write_pass. unfold bind at 1. unfold assert.
  assert (H1 : NDEBUG D || (earliest_seqno_in_memtable <=?
                            sequence (ParseInternalKey D key))%N = true).
  { destruct Hc as [Hc|[Hc _]]; [now rewrite Hc|].
    unfold entry_sequence in Hc. simpl in Hc. rewrite Hc.
    apply orb_true_r. }
  rewrite H1. unfold bind at 1. rewrite purge_loop_run by tauto.
  unfold bind, Add, emit, set_largest, update_meta. simpl.
  unfold purge_written, add_events. rewrite map_app, <- app_assoc.
  reflexivity.
Qed.

End Purge.

(** ** BuildTable in closed form *)

Section ClosedForm.

Variable D : Deps.
Variable user_comparator : Comparator.
Variable earliest_seqno_in_memtable : SequenceNumber.

(** Once the output file is created, either an [assert] of the pass stops
    the call, or the pass hands a non-empty list [l] of entries to the
    builder and the rest of the call is determined by what the
    collaborators answer. *)
Lemma BuildTable_after_pass (dbname : string) (env : Env) (options : Options)
    (table_cache : TableCache) (iter : Iterator) (meta0 : FileMetaData)
    (newest_snapshot : SequenceNumber) (key value : Slice)
    (rest : list (Slice * Slice)) :
  let fname := TableFileName D dbname (number meta0) in
  let s0 := fst (NewWritableFile env fname) in
  let file := snd (NewWritableFile env fname) in
  let o := BuildTable D user_comparator earliest_seqno_in_memtable dbname env
                      options table_cache iter meta0 newest_snapshot in
  entries iter = (key, value) :: rest ->
  ok s0 = true ->
  exists l,
    (NDEBUG D = false /\
     exists w st, o = Faulted w st /\ w <> AssertFileSize /\
                  trace st = EvNewWritableFile fname s0 :: add_events l /\
                  file_size (meta st) = 0%N) \/
    (hd (key, value) l = (key, value) /\ l <> [] /\
     let f := Finish D l in
     let size := FileSize D l in
     let m := fun n => {| number := number meta0; file_size := n;
                          smallest := key;
                          largest := fst (last l (key, value)) |} in
     let sync_ev := if use_fsync options then EvFsync (Fsync file)
                    else EvSync (Sync file) in
     let s1 := if disableDataSync options then f
               else if use_fsync options then Fsync file else Sync file in
     let s2 := if ok s1 then Close file else s1 in
     let v := NewIterator table_cache (number meta0) size in
     let s3 := if ok s2 then v else s2 in
     let s' := if ok (status iter) then s3 else status iter in
     let sf := if ok (status iter) then f else status iter in
     o =
     if ok f then
       if NDEBUG D || (0 <? size)%N then
         Returned s'
           {| meta := m size;
              trace := EvNewWritableFile fname s0 :: add_events l ++
                       [EvFinish f; EvDeleteBuilder] ++
                       (if disableDataSync options then [] else [sync_ev]) ++
                       (if ok s1 then [EvClose (Close file)] else []) ++
                       (if ok s2
                        then [EvNewIterator (number meta0) size v]
                        else []) ++
                       (if ok s' && (0 <? size)%N then []
                        else [EvDeleteFile fname]) |}
       else
         Faulted AssertFileSize
           {| meta := m size;
              trace := EvNewWritableFile fname s0 :: add_events l ++
                       [EvFinish f] |}
     else
       Returned sf
         {| meta := m 0%N;
            trace := EvNewWritableFile fname s0 :: add_events l ++
                     [EvFinish f; EvDeleteBuilder; EvDeleteFile fname] |}).
Proof.
  intros fname s0 file o He Hs. subst o.
  erewrite BuildTable_created; try exact He; try exact Hs.
  fold fname. fold s0. fold file.
  match goal with
  | |- context [write_pass D ?c ?e ?p ?k ?v ?r ?st1] =>
      destruct (write_pass_trace D c e p k v r st1)
        as ((l & Hl & Hh) & Hnum & Hfs & Hret & Hab);
      destruct (write_pass D c e p k v r st1) as [u st2|s st2|w st2]
  end; simpl in Hl, Hnum, Hfs; exists l.
  - right. destruct (Hh u st2 eq_refl) as (Hhd & Hne & Hlg & Hsm).
    simpl in Hsm.
    split; [exact Hhd|]. split; [exact Hne|]. cbv zeta.
    rewrite finish_file_cases by exact Hs.
    assert (Hadds : adds_of (trace st2) = l).
    { rewrite Hl. simpl. apply adds_of_add_events. }
    rewrite Hadds, Hl, Hnum, Hsm, Hlg.
    destruct (ok (Finish D l)) eqn:Hf.
    + destruct (NDEBUG D || (0 <? FileSize D l)%N).
      * repeat (progress (rewrite <- ?app_assoc; simpl)). reflexivity.
      * simpl. reflexivity.
    + simpl. rewrite andb_false_intro1.
      * repeat (progress (rewrite <- ?app_assoc; simpl)).
        destruct st2 as [[n z sm lg] t]. simpl in *. subst. reflexivity.
      * destruct (ok (status iter)) eqn:Hi; [exact Hf|exact Hi].
  - exfalso. eapply Hret. reflexivity.
  - left. destruct (Hab w st2 eq_refl) as [Hn Hw].
    split; [exact Hn|]. exists w, st2. auto.
Qed.

(** With asserts compiled in, a source on which a check of the purge loop
    fails makes the whole call stop on that assert: no status is
    returned. *)
Lemma BuildTable_purge_violation_faults (dbname : string) (env : Env)
    (options : Options) (table_cache : TableCache) (iter : Iterator)
    (meta0 : FileMetaData) (newest_snapshot : SequenceNumber)
    (key value : Slice) (rest : list (Slice * Slice)) :
  let fname := TableFileName D dbname (number meta0) in
  NDEBUG D = false ->
  entries iter = (key, value) :: rest ->
  ok (fst (NewWritableFile env fname)) = true ->
  purge_decision earliest_seqno_in_memtable options newest_snapshot = true ->
  (earliest_seqno_in_memtable <=? entry_sequence D (key, value))%N = true ->
  purge_checks D user_comparator earliest_seqno_in_memtable rest (key, value)
    = false ->
  exists w st,
    BuildTable D user_comparator earliest_seqno_in_memtable dbname env
               options table_cache iter meta0 newest_snapshot = Faulted w st /\
    (w = AssertThisSeqno \/ w = AssertSeqnoDecreasing).
Proof.
  intros fname Hn He Hs Hd Hfirst Hchk.
  erewrite BuildTable_created; try exact He; try exact Hs.
  rewrite Hd. unfold write_pass. unfold bind at 1. unfold assert.
  unfold entry_sequence in Hfirst. simpl in Hfirst.
  rewrite Hfirst, orb_true_r. unfold bind at 1.
  match goal with
  | |- context [purge_loop _ _ _ rest ?k ?v _ ?st1] =>
      destruct (purge_loop_faults D user_comparator
                  earliest_seqno_in_memtable rest k v st1 Hn Hchk)
        as (w & st' & Hl & Hw)
  end.
  rewrite Hl. eauto.
Qed.

End ClosedForm.

(** ** Runs of a sorted source *)

Section RunsFacts.

Variable D : Deps.
Variable user_comparator : Comparator.
Variable earliest_seqno_in_memtable : SequenceNumber.

Local Abbreviation same' := (same_user_key D user_comparator).
Local Abbreviation seq' := (entry_sequence D).
Local Abbreviation runs' := (runs D user_comparator).

Lemma runs_cons_head (e : Slice * Slice) (l : list (Slice * Slice)) :
  exists r rs, runs' (e :: l) = (e, r) :: rs.
Proof.
  simpl. destruct (runs' l) as [|[e' r] rs]; [eauto|].
  destruct (same' e e'); eauto.
Qed.

(** The runs partition the source. *)
Lemma runs_concat (l : list (Slice * Slice)) :
  flat_map (fun run => fst run :: snd run) (runs' l) = l.
Proof.
  induction l as [|e l IH]; [reflexivity|].
  simpl. destruct (runs' l) as [|[e' r] rs]; simpl in *.
  - now rewrite <- IH.
  - destruct (same' e e'); simpl; now rewrite <- IH.
Qed.

(** A run holds neighbours that share a user key, and the run that follows
    starts with another user key. *)
Lemma runs_head_of_tail (e : Slice * Slice) (l : list (Slice * Slice)) :
  match runs' (e :: l) with
  | (h, x :: _) :: _ => h = e /\ hd_error l = Some x /\ same' e x = true
  | (h, []) :: (h', _) :: _ => h = e /\ hd_error l = Some h' /\ same' e h' = false
  | (h, []) :: [] => h = e /\ l = []
  | [] => False
  end.
Proof.
  simpl. destruct l as [|x l].
  - simpl. auto.
  - destruct (runs_cons_head x l) as (r & rs & Hr). rewrite Hr.
    destruct (same' e x) eqn:Hs; simpl; auto.
Qed.

Hypothesis cmp_equiv : comparator_equiv user_comparator.

Lemma same_refl (a : Slice * Slice) : same' a a = true.
Proof.
  destruct cmp_equiv as (Hrefl & _).
  unfold same_user_key. apply Z.eqb_eq. apply Hrefl.
Qed.

Lemma same_trans_l (p q x : Slice * Slice) :
  same' p q = true -> same' p x = same' q x.
Proof.
  destruct cmp_equiv as (_ & Hsym & Htrans).
  unfold same_user_key. intros Hpq. apply Z.eqb_eq in Hpq.
  destruct (Compare user_comparator (entry_user_key D q)
              (entry_user_key D x) =? 0)%Z eqn:Hqx.
  - apply Z.eqb_eq in Hqx. apply Z.eqb_eq. eauto.
  - apply Z.eqb_neq in Hqx. apply Z.eqb_neq. intros Hpx. apply Hqx.
    eauto.
Qed.

Lemma runs_heads_same (p q : Slice * Slice) (l : list (Slice * Slice)) :
  same' p q = true ->
  map fst (runs' (p :: l)) = p :: tl (map fst (runs' (q :: l))).
Proof.
  intros Hpq. simpl. destruct (runs' l) as [|[e r] rs]; [reflexivity|].
  rewrite (same_trans_l _ _ e Hpq).
  destruct (same' q e); reflexivity.
Qed.

(** The purge loop writes the first entry of every run. *)
Lemma purge_written_runs (it : list (Slice * Slice)) (p : Slice * Slice) :
  purge_written D user_comparator it p = map fst (runs' (p :: it)).
Proof.
  revert p. induction it as [|this it IH]; intros p; [reflexivity|].
  rewrite purge_written_cons.
  destruct (same' p this) eqn:Hs.
  - rewrite IH. rewrite (runs_heads_same _ _ it Hs).
    destruct (runs_cons_head this it) as (r & rs & Hr).
    change (runs' (p :: this :: it))
      with (match runs' (this :: it) with
            | (e', r) :: rs =>
                if same' p e' then (p, e' :: r) :: rs
                else (p, []) :: (e', r) :: rs
            | [] => [(p, [])]
            end).
    rewrite Hr, Hs. reflexivity.
  - rewrite IH.
    destruct (runs_cons_head this it) as (r & rs & Hr).
    change (runs' (p :: this :: it))
      with (match runs' (this :: it) with
            | (e', r) :: rs =>
                if same' p e' then (p, e' :: r) :: rs
                else (p, []) :: (e', r) :: rs
            | [] => [(p, [])]
            end).
    rewrite Hr, Hs. reflexivity.
Qed.

(** In a sorted source the first entry of a run is strictly newer than
    every other entry of the run. *)
Lemma runs_first_is_newest (l : list (Slice * Slice)) :
  sorted_source D user_comparator l = true ->
  Forall (fun run =>
            Forall (fun e => (seq' e < seq' (fst run))%N) (snd run))
         (runs' l).
Proof.
  induction l as [|e l IH]; intros Hs; [constructor|].
  assert (Hs' : sorted_source D user_comparator l = true).
  { destruct l; [reflexivity|]. simpl in Hs.
    apply andb_prop in Hs. now destruct Hs. }
  specialize (IH Hs').
  destruct l as [|x l]; [simpl; repeat constructor|].
  destruct (runs_cons_head x l) as (r & rs & Hr).
  change (runs' (e :: x :: l))
    with (match runs' (x :: l) with
          | (e', r) :: rs =>
              if same' e e' then (e, e' :: r) :: rs
              else (e, []) :: (e', r) :: rs
          | [] => [(e, [])]
          end).
  rewrite Hr in *. inversion IH as [|? ? Hx Hrs]; subst. simpl in Hx.
  destruct (same' e x) eqn:Hex.
  - constructor; [|assumption]. simpl.
    assert (Hlt : (seq' x < seq' e)%N).
    { simpl in Hs. apply andb_prop in Hs. destruct Hs as [Hs _].
      unfold in_order in Hs. rewrite Hex in Hs. simpl in Hs.
      apply orb_prop in Hs. destruct Hs as [Hs|Hs].
      - unfold same_user_key in Hex. apply Z.eqb_eq in Hex.
        apply Z.ltb_lt in Hs. lia.
      - now apply N.ltb_lt. }
    constructor; [assumption|].
    eapply Forall_impl; [|exact Hx]. simpl. intros a Ha. lia.
  - constructor; [constructor|]. constructor; assumption.
Qed.

Lemma newest_from_head (h : Slice * Slice) (r : list (Slice * Slice)) :
  Forall (fun e => (seq' e < seq' h)%N) r -> newest_from D h r = h.
Proof.
  induction r as [|e r IH]; intros Hr; [reflexivity|].
  inversion Hr; subst. simpl.
  replace (seq' h <? seq' e)%N with false
    by (symmetry; apply N.ltb_ge; lia).
  auto.
Qed.

Lemma map_newest_runs (l : list (Slice * Slice)) :
  sorted_source D user_comparator l = true ->
  map (newest D) (runs' l) = map fst (runs' l).
Proof.
  intros Hs. apply runs_first_is_newest in Hs.
  induction Hs as [|run rs Hrun _ IH]; [reflexivity|].
  simpl. rewrite IH. f_equal. unfold newest. now apply newest_from_head.
Qed.

(** On a sorted source whose entries are all at or above
    [earliest_seqno_in_memtable], no [assert] of the purge loop fails. *)
Lemma purge_checks_sorted (it : list (Slice * Slice)) (p q : Slice * Slice) :
  sorted_source D user_comparator (q :: it) = true ->
  same' p q = true ->
  (seq' q <= seq' p)%N ->
  Forall (fun e => (earliest_seqno_in_memtable <= seq' e)%N) it ->
  purge_checks D user_comparator earliest_seqno_in_memtable it p = true.
Proof.
  revert p q. induction it as [|x it IH]; intros p q Hs Hpq Hle Hall;
    [reflexivity|].
  inversion Hall as [|? ? Hx Hit]; subst.
  simpl in Hs. apply andb_prop in Hs. destruct Hs as [Hqx Hs].
  simpl. apply andb_true_intro. split; [now apply N.leb_le|].
  rewrite (same_trans_l _ _ x Hpq).
  destruct (same' q x) eqn:Hsx.
  - unfold in_order in Hqx. rewrite Hsx in Hqx. simpl in Hqx.
    assert (Hlt : (seq' x < seq' q)%N).
    { apply orb_prop in Hqx. destruct Hqx as [Hqx|Hqx].
      - unfold same_user_key in Hsx. apply Z.eqb_eq in Hsx.
        apply Z.ltb_lt in Hqx. lia.
      - now apply N.ltb_lt. }
    apply andb_true_intro. split; [apply N.ltb_lt; lia|].
    apply (IH p x); try assumption.
    + rewrite (same_trans_l _ _ x Hpq). exact Hsx.
    + lia.
  - apply (IH x x); try assumption.
    + apply same_refl.
    + lia.
Qed.

End RunsFacts.

(** ** Properties of BuildTable *)

Section Claims.

Variable D : Deps.
Variable user_comparator : Comparator.
Variable earliest_seqno_in_memtable : SequenceNumber.

Local Abbreviation build :=
  (BuildTable D user_comparator earliest_seqno_in_memtable).

(** C3.  With purge switched off in the options, a non-empty source whose
    output file could be created is handed to the table builder entry by
    entry, unchanged and in order; [smallest] is the key of the first
    input entry and [largest] the key of the last one.  This holds however
    the later stages end. *)
Theorem BuildTable_without_purge_copies_input
    (dbname : string) (env : Env) (options : Options)
    (table_cache : TableCache) (iter : Iterator) (meta0 : FileMetaData)
    (newest_snapshot : SequenceNumber) (key value : Slice)
    (rest : list (Slice * Slice)) :
  entries iter = (key, value) :: rest ->
  purge_redundant_kvs_while_flush options = false ->
  ok (fst (NewWritableFile env (TableFileName D dbname (number meta0)))) = true ->
  let st := outcome_state
              (build dbname env options table_cache iter meta0
                     newest_snapshot) in
  adds_of (trace st) = entries iter /\
  smallest (meta st) = key /\
  largest (meta st) = fst (last (entries iter) (key, value)).
Proof.
  intros He Hp Hs st. subst st.
  erewrite BuildTable_created; [|exact He|exact Hs].
  unfold purge_decision. rewrite Hp.
  replace (if (earliest_seqno_in_memtable <=? newest_snapshot)%N
           then false else false) with false by (now destruct (_ <=? _)%N).
  unfold write_pass. rewrite copy_loop_run.
  match goal with
  | |- context [finish_file D ?s ?f ?o ?t ?st2] =>
      pose proof (finish_file_frame D s f o t st2) as Hf;
      destruct (finish_file D s f o t st2) as [s1 st3|s1 st3|w st3]
  end; simpl in Hf; destruct Hf as (Ha & _ & Hsm & Hlg); simpl;
    rewrite ?adds_of_app, ?app_nil_r; rewrite Ha, Hsm, Hlg, He;
    (split; [|split]).
  all: try (match goal with
            | |- context [if ?b then [] else _] => destruct b
            end; simpl; rewrite ?app_nil_r).
  all: try (now rewrite adds_of_add_events).
  all: try (exact (proj2 (proj2 (fold_largest_frame ((key, value) :: rest)
              {| number := number meta0; file_size := 0;
                 smallest := key; largest := largest meta0 |})))).
  all: exact (fold_largest_last rest _ (key, value)).
Qed.

(** C2.  When [earliest_seqno_in_memtable <= newest_snapshot] the purge
    decision is negative whatever the options ask for; it is computed from
    the options and the two sequence numbers alone, before the source is
    read, so the whole call proceeds exactly as with the option cleared;
    and once the output file is created the table builder receives the
    input entries unchanged and in order. *)
Theorem BuildTable_snapshot_suppresses_purge
    (dbname : string) (env : Env) (options : Options)
    (table_cache : TableCache) (iter : Iterator) (meta0 : FileMetaData)
    (newest_snapshot : SequenceNumber) :
  (earliest_seqno_in_memtable <= newest_snapshot)%N ->
  purge_decision earliest_seqno_in_memtable options newest_snapshot = false /\
  build dbname env options table_cache iter meta0 newest_snapshot =
  build dbname env
        {| purge_redundant_kvs_while_flush := false;
           disableDataSync := disableDataSync options;
           use_fsync := use_fsync options |}
        table_cache iter meta0 newest_snapshot /\
  (ok (fst (NewWritableFile env (TableFileName D dbname (number meta0)))) = true ->
   adds_of (trace (outcome_state
                     (build dbname env options table_cache iter meta0
                            newest_snapshot))) = entries iter).
Proof.
  intros Hle.
  assert (Hd : forall o, purge_decision earliest_seqno_in_memtable o
                                        newest_snapshot = false).
  { intros o. unfold purge_decision.
    apply N.leb_le in Hle. now rewrite Hle. }
  split; [apply Hd|]. split.
  - unfold BuildTable, BuildTable_body. rewrite !Hd. reflexivity.
  - intros Hs. destruct (entries iter) as [|[key value] rest] eqn:He.
    + rewrite BuildTable_empty by assumption. reflexivity.
    + erewrite BuildTable_created; [|exact He|exact Hs].
      rewrite Hd. unfold write_pass. rewrite copy_loop_run.
      match goal with
      | |- context [finish_file D ?s ?f ?o ?t ?st2] =>
          pose proof (finish_file_frame D s f o t st2) as Hf;
          destruct (finish_file D s f o t st2) as [s1 st3|s1 st3|w st3]
      end; simpl in Hf; destruct Hf as (Ha & _); simpl;
        rewrite ?adds_of_app; rewrite Ha, adds_of_add_events;
        try (match goal with
             | |- context [if ?b then [] else _] => destruct b
             end); simpl; rewrite ?app_nil_r; reflexivity.
Qed.

(** C6.  A source that yields no entry and reports no error makes the call
    return OK without creating any file: the only call made is the
    deletion of the file name, the name is absent from the disk afterwards
    and [file_size] is 0. *)
Theorem BuildTable_empty_source
    (dbname : string) (env : Env) (options : Options)
    (table_cache : TableCache) (iter : Iterator) (meta0 : FileMetaData)
    (newest_snapshot : SequenceNumber) (disk : Disk) :
  entries iter = [] ->
  ok (status iter) = true ->
  let fname := TableFileName D dbname (number meta0) in
  let o := build dbname env options table_cache iter meta0 newest_snapshot in
  returned_status o = Some OK /\
  trace (outcome_state o) = [EvDeleteFile fname] /\
  disk_after disk (trace (outcome_state o)) fname = false /\
  file_size (meta (outcome_state o)) = 0%N.
Proof.
  intros He Hs fname o. subst o.
  rewrite BuildTable_empty by assumption. simpl.
  destruct (status iter); [|discriminate].
  repeat split. fold fname. now rewrite String.eqb_refl.
Qed.

(** C1.  Purge requested, [earliest_seqno_in_memtable] above the newest
    snapshot and a lower bound of the sequence numbers of a non-empty
    sorted source (so every entry is above the snapshot), output file
    created: the source splits into its maximal runs of consecutive
    entries sharing a user key, and the table builder receives exactly one
    entry per run, in order, namely the entry of the run with the maximum
    sequence number, which is the first of the run and strictly newer than
    all the others; [smallest] is the first key written and [largest] the
    last key written. *)
Theorem BuildTable_purge_keeps_newest_of_each_run
    (dbname : string) (env : Env) (options : Options)
    (table_cache : TableCache) (iter : Iterator) (meta0 : FileMetaData)
    (newest_snapshot : SequenceNumber) (key value : Slice)
    (rest : list (Slice * Slice)) :
  comparator_equiv user_comparator ->
  entries iter = (key, value) :: rest ->
  sorted_source D user_comparator (entries iter) = true ->
  purge_redundant_kvs_while_flush options = true ->
  (newest_snapshot < earliest_seqno_in_memtable)%N ->
  Forall (fun e => (earliest_seqno_in_memtable <= entry_sequence D e)%N)
         (entries iter) ->
  ok (fst (NewWritableFile env (TableFileName D dbname (number meta0)))) = true ->
  let st := outcome_state
              (build dbname env options table_cache iter meta0
                     newest_snapshot) in
  let rs := runs D user_comparator (entries iter) in
  flat_map (fun run => fst run :: snd run) rs = entries iter /\
  adds_of (trace st) = map (newest D) rs /\
  Forall (fun run =>
            newest D run = fst run /\
            Forall (fun e => (entry_sequence D e < entry_sequence D (fst run))%N)
                   (snd run)) rs /\
  smallest (meta st) = fst (hd (key, value) (adds_of (trace st))) /\
  largest (meta st) = fst (last (adds_of (trace st)) (key, value)).
Proof.
  intros Heq He Hsorted Hp Hlt Hall Hs st rs. subst st rs.
  rewrite He in *.
  assert (Hd : purge_decision earliest_seqno_in_memtable options
                              newest_snapshot = true).
  { unfold purge_decision. rewrite Hp.
    replace (earliest_seqno_in_memtable <=? newest_snapshot)%N with false
      by (symmetry; apply N.leb_gt; exact Hlt).
    reflexivity. }
  inversion Hall as [|? ? Hfirst Hrest]; subst.
  assert (Hchecks : purge_checks D user_comparator earliest_seqno_in_memtable
                                 rest (key, value) = true).
  { apply purge_checks_sorted with (q := (key, value)); auto.
    - now apply same_refl.
    - lia. }
  assert (Hnew := runs_first_is_newest D user_comparator _ Hsorted).
  split; [apply runs_concat|].
  assert (Hadds : adds_of (trace (outcome_state
                    (build dbname env options table_cache iter meta0
                           newest_snapshot))) =
                  purge_written D user_comparator rest (key, value) /\
                  smallest (meta (outcome_state
                    (build dbname env options table_cache iter meta0
                           newest_snapshot))) = key /\
                  largest (meta (outcome_state
                    (build dbname env options table_cache iter meta0
                           newest_snapshot))) =
                  fst (snd (purge_split D user_comparator rest (key, value)))).
  { erewrite BuildTable_created; [|exact He|exact Hs].
    rewrite Hd. rewrite write_pass_purge_run
      by (right; split; [now apply N.leb_le|exact Hchecks]).
    match goal with
    | |- context [finish_file D ?s ?f ?o ?t ?st2] =>
        pose proof (finish_file_frame D s f o t st2) as Hf;
        destruct (finish_file D s f o t st2) as [s1 st3|s1 st3|w st3]
    end; simpl in Hf; destruct Hf as (Ha & _ & Hsm & Hlg); simpl;
      rewrite ?adds_of_app, Ha, Hsm, Hlg, adds_of_add_events;
      try (match goal with
           | |- context [if ?b then [] else _] => destruct b
           end); simpl; rewrite ?app_nil_r; auto. }
  destruct Hadds as (Hadds & Hsm & Hlg).
  rewrite Hadds, Hsm, Hlg.
  rewrite (purge_written_runs D Heq rest (key, value)).
  split; [symmetry; now apply map_newest_runs|].
  split.
  - eapply Forall_impl; [|exact Hnew]. intros run Hrun. split; [|exact Hrun].
    unfold newest. now apply newest_from_head.
  - split.
    + destruct (runs_cons_head D user_comparator (key, value) rest)
        as (r & rs & Hr).
      rewrite Hr. reflexivity.
    + rewrite <- (purge_written_runs D Heq rest (key, value)).
      unfold purge_written. rewrite last_last. reflexivity.
Qed.

(** C7.  Non-empty source, output file created, [Finish] answered OK and
    reported a positive size: the call returns, and
    - with [disableDataSync] no sync call is made; otherwise exactly one is
      made, [Fsync] under [use_fsync] and [Sync] otherwise;
    - [Close] is called once if the sync was skipped or succeeded, and not
      at all if it failed; no sync call follows a [Close];
    - if the sync or the [Close] fails, so does the call. *)
Theorem BuildTable_sync_then_close
    (dbname : string) (env : Env) (options : Options)
    (table_cache : TableCache) (iter : Iterator) (meta0 : FileMetaData)
    (newest_snapshot : SequenceNumber) (key value : Slice)
    (rest : list (Slice * Slice)) :
  let fname := TableFileName D dbname (number meta0) in
  let file := snd (NewWritableFile env fname) in
  let o := build dbname env options table_cache iter meta0 newest_snapshot in
  let sync_result := if use_fsync options then Fsync file else Sync file in
  let sync_event := if use_fsync options then EvFsync (Fsync file)
                    else EvSync (Sync file) in
  let synced := disableDataSync options || ok sync_result in
  entries iter = (key, value) :: rest ->
  ok (fst (NewWritableFile env fname)) = true ->
  existsb is_finish_ok (trace (outcome_state o)) = true ->
  NDEBUG D = true \/
  (0 < FileSize D (adds_of (trace (outcome_state o))))%N ->
  exists s st,
    o = Returned s st /\
    syncs_of (trace st) =
      (if disableDataSync options then [] else [sync_event]) /\
    closes_of (trace st) = (if synced then [Close file] else []) /\
    (forall t1 r t2, trace st = t1 ++ EvClose r :: t2 -> syncs_of t2 = []) /\
    (synced && ok (Close file) = false -> ok s = false).
Proof.
  intros fname file o sync_result sync_event synced He Hs HF Hsz.
  subst o.
  destruct (BuildTable_after_pass D user_comparator earliest_seqno_in_memtable
              dbname env options table_cache iter meta0 newest_snapshot
              He Hs)
    as (l & [(Hn & w & st & Ho & Hw & Ht & Hz) | (Hhd & Hne & Ho)]).
  - exfalso. rewrite Ho in HF. simpl in HF. rewrite Ht in HF. simpl in HF.
    rewrite existsb_add_events in HF by reflexivity. discriminate.
  - cbv zeta in Ho. fold fname in Ho. fold file in Ho.
    rewrite Ho in HF, Hsz |- *. clear Ho.
    destruct (Finish D l) as [|code msg] eqn:Hf; simpl in HF, Hsz |- *.
    + destruct (NDEBUG D || (0 <? FileSize D l)%N) eqn:Hchk;
        simpl in HF, Hsz |- *.
      * clear HF Hsz. eexists. eexists. split; [reflexivity|].
        subst sync_result sync_event synced. simpl.
        rewrite !syncs_of_app, !closes_of_app.
        rewrite syncs_of_add_events, closes_of_add_events. simpl.
        split; [|split; [|split]].
        4: intros Hfail.
        3: apply no_sync_after_close; simpl;
             [rewrite !closes_of_app, closes_of_add_events
             |rewrite after_close_app by apply closes_of_add_events].
        all: destruct (disableDataSync options), (use_fsync options);
          destruct (Fsync file), (Sync file), (Close file); simpl in *;
          try discriminate;
          destruct (NewIterator table_cache (number meta0) (FileSize D l));
          destruct (status iter); simpl;
          destruct (0 <? FileSize D l)%N; simpl; auto.
      * exfalso. apply orb_false_elim in Hchk. destruct Hchk as [Hn Hz].
        destruct Hsz as [Hsz|Hsz]; [congruence|].
        rewrite adds_of_app, adds_of_add_events in Hsz. simpl in Hsz.
        rewrite app_nil_r in Hsz. apply N.ltb_lt in Hsz. congruence.
    + exfalso. rewrite existsb_app in HF.
      rewrite existsb_add_events in HF by reflexivity. discriminate.
Qed.

(** C10.  Non-empty source, output file created, [Finish] answered OK with
    a positive size: the call returns, [file_size] is that size (so it is
    positive), [smallest] and [largest] are the first and last keys handed
    to the builder; and this is so also when the call fails in a later
    stage, in which case the last thing the call does is delete the file. *)
Theorem BuildTable_late_failure_keeps_descriptor
    (dbname : string) (env : Env) (options : Options)
    (table_cache : TableCache) (iter : Iterator) (meta0 : FileMetaData)
    (newest_snapshot : SequenceNumber) (key value : Slice)
    (rest : list (Slice * Slice)) (disk : Disk) :
  let fname := TableFileName D dbname (number meta0) in
  let o := build dbname env options table_cache iter meta0 newest_snapshot in
  entries iter = (key, value) :: rest ->
  ok (fst (NewWritableFile env fname)) = true ->
  existsb is_finish_ok (trace (outcome_state o)) = true ->
  (0 < FileSize D (adds_of (trace (outcome_state o))))%N ->
  exists s st,
    o = Returned s st /\
    file_size (meta st) = FileSize D (adds_of (trace st)) /\
    (0 < file_size (meta st))%N /\
    smallest (meta st) = fst (hd (key, value) (adds_of (trace st))) /\
    largest (meta st) = fst (last (adds_of (trace st)) (key, value)) /\
    (ok s = false ->
     last (trace st) EvDeleteBuilder = EvDeleteFile fname /\
     disk_after disk (trace st) fname = false).
Proof.
  intros fname o He Hs HF Hsz. subst o.
  destruct (BuildTable_after_pass D user_comparator earliest_seqno_in_memtable
              dbname env options table_cache iter meta0 newest_snapshot
              He Hs)
    as (l & [(Hn & w & st & Ho & Hw & Ht & Hz) | (Hhd & Hne & Ho)]).
  - exfalso. rewrite Ho in HF. simpl in HF. rewrite Ht in HF. simpl in HF.
    rewrite existsb_add_events in HF by reflexivity. discriminate.
  - cbv zeta in Ho. fold fname in Ho.
    rewrite Ho in HF, Hsz |- *. clear Ho.
    set (file := snd (NewWritableFile env fname)) in *.
    destruct (Finish D l) as [|code msg] eqn:Hf.
    + destruct (disableDataSync options), (use_fsync options),
        (Fsync file), (Sync file), (Close file),
        (NewIterator table_cache (number meta0) (FileSize D l)),
        (status iter), (NDEBUG D);
        destruct (0 <? FileSize D l)%N eqn:Hpos;
        cbn [orb andb ok app outcome_state trace] in HF, Hsz |- *;
        rewrite adds_of_created in Hsz;
        cbn [adds_of] in Hsz; rewrite app_nil_r in Hsz;
        try (apply N.ltb_lt in Hsz; congruence);
        (eexists; eexists; split; [reflexivity|]);
        cbn [meta trace file_size smallest largest];
        rewrite adds_of_created;
        cbn [adds_of]; rewrite app_nil_r;
        (split; [reflexivity|]); (split; [exact Hsz|]);
        (split; [now rewrite Hhd|]); (split; [reflexivity|]);
        cbn [ok]; intros Hfail; try discriminate;
        (split; [|apply disk_after_last_delete]);
        rewrite last_created; reflexivity.
    + exfalso. simpl in HF. rewrite existsb_app in HF.
      rewrite existsb_add_events in HF by reflexivity. discriminate.
Qed.

(** C5, as the code has it.  Non-empty source, output file created, and
    the table builder reports an error, which it can only do as the answer
    of [Finish]: the builder is finished, never abandoned; the call returns
    a failure; [file_size] stays 0 while [smallest] and [largest] are the
    first and last keys handed to the builder; the last thing the call does
    is delete the file, which is absent afterwards. *)
Theorem BuildTable_builder_error
    (dbname : string) (env : Env) (options : Options)
    (table_cache : TableCache) (iter : Iterator) (meta0 : FileMetaData)
    (newest_snapshot : SequenceNumber) (key value : Slice)
    (rest : list (Slice * Slice)) (disk : Disk) :
  let fname := TableFileName D dbname (number meta0) in
  let o := build dbname env options table_cache iter meta0 newest_snapshot in
  entries iter = (key, value) :: rest ->
  ok (fst (NewWritableFile env fname)) = true ->
  existsb is_finish_failed (trace (outcome_state o)) = true ->
  exists s st,
    o = Returned s st /\
    ok s = false /\
    existsb is_abandon (trace st) = false /\
    file_size (meta st) = 0%N /\
    smallest (meta st) = fst (hd (key, value) (adds_of (trace st))) /\
    largest (meta st) = fst (last (adds_of (trace st)) (key, value)) /\
    last (trace st) EvDeleteBuilder = EvDeleteFile fname /\
    disk_after disk (trace st) fname = false.
Proof.
  intros fname o He Hs HF. subst o.
  destruct (BuildTable_after_pass D user_comparator earliest_seqno_in_memtable
              dbname env options table_cache iter meta0 newest_snapshot
              He Hs)
    as (l & [(Hn & w & st & Ho & Hw & Ht & Hz) | (Hhd & Hne & Ho)]).
  - exfalso. rewrite Ho in HF. simpl in HF. rewrite Ht in HF. simpl in HF.
    rewrite existsb_add_events in HF by reflexivity. discriminate.
  - cbv zeta in Ho. fold fname in Ho.
    rewrite Ho in HF |- *. clear Ho.
    set (file := snd (NewWritableFile env fname)) in *.
    destruct (Finish D l) as [|code msg] eqn:Hf.
    + exfalso.
      destruct (disableDataSync options), (use_fsync options),
        (Fsync file), (Sync file), (Close file),
        (NewIterator table_cache (number meta0) (FileSize D l)),
        (status iter), (NDEBUG D), (0 <? FileSize D l)%N;
        cbn [orb andb ok app outcome_state trace] in HF;
        rewrite existsb_created in HF by reflexivity;
        discriminate.
    + cbn [ok]. eexists. eexists. split; [reflexivity|].
      cbn [meta trace file_size smallest largest].
      rewrite adds_of_created. cbn [adds_of]. rewrite app_nil_r.
      split; [now destruct (status iter)|].
      split; [now rewrite existsb_created by reflexivity|].
      split; [reflexivity|]. split; [now rewrite Hhd|].
      split; [reflexivity|].
      split; [|apply disk_after_last_delete];
        rewrite last_created; reflexivity.
Qed.

(** C4, as the code has it.  A call that returns a failure either failed
    to create the output file, in which case that call is the only one it
    made and it returned the creation error at once without deleting
    anything, or it ends with the deletion of the output file, which is
    absent afterwards. *)
Theorem BuildTable_failure_cleanup
    (dbname : string) (env : Env) (options : Options)
    (table_cache : TableCache) (iter : Iterator) (meta0 : FileMetaData)
    (newest_snapshot : SequenceNumber) (disk : Disk)
    (s : Status) (st : State) :
  let fname := TableFileName D dbname (number meta0) in
  let created := fst (NewWritableFile env fname) in
  build dbname env options table_cache iter meta0 newest_snapshot =
    Returned s st ->
  ok s = false ->
  (entries iter <> [] /\ ok created = false /\ s = created /\
   trace st = [EvNewWritableFile fname created]) \/
  ((entries iter = [] \/ ok created = true) /\
   last (trace st) EvDeleteBuilder = EvDeleteFile fname /\
   disk_after disk (trace st) fname = false).
Proof.
  intros fname created Ho Hfail.
  destruct (entries iter) as [|[key value] rest] eqn:He.
  - right. rewrite BuildTable_empty in Ho by exact He.
    inversion Ho; subst; clear Ho. simpl. fold fname.
    rewrite String.eqb_refl. auto.
  - destruct (ok created) eqn:Hs.
    + right. split; [auto|].
      destruct (BuildTable_after_pass D user_comparator
                  earliest_seqno_in_memtable dbname env options table_cache
                  iter meta0 newest_snapshot He Hs)
        as (l & [(Hn & w & st' & Ho' & _) | (Hhd & Hne & Ho')]);
        [congruence|].
      cbv zeta in Ho'. fold fname in Ho'. rewrite Ho' in Ho. clear Ho'.
      set (file := snd (NewWritableFile env fname)) in *.
      destruct (Finish D l), (disableDataSync options), (use_fsync options),
        (Fsync file), (Sync file), (Close file),
        (NewIterator table_cache (number meta0) (FileSize D l)),
        (status iter), (NDEBUG D), (0 <? FileSize D l)%N;
        cbn [orb andb ok app] in Ho; inversion Ho; subst; clear Ho;
        try discriminate;
        (split; [|apply disk_after_last_delete]);
        cbn [trace]; rewrite last_created; reflexivity.
    + left. rewrite BuildTable_creation_failed in Ho.
      * inversion Ho; subst; clear Ho. simpl.
        split; [discriminate|]. auto.
      * rewrite He. discriminate.
      * exact Hs.
Qed.

(** C8, as the code has it.  Unless the call returned early because the
    output file could not be created, a source whose status is an error
    makes the call return that error, whatever the earlier stages
    answered, for an empty source as for a non-empty one; the only other
    way for the call to end is a failed [assert], in a build that has
    them. *)
Theorem BuildTable_source_error_overrides
    (dbname : string) (env : Env) (options : Options)
    (table_cache : TableCache) (iter : Iterator) (meta0 : FileMetaData)
    (newest_snapshot : SequenceNumber) :
  let fname := TableFileName D dbname (number meta0) in
  ok (status iter) = false ->
  entries iter = [] \/ ok (fst (NewWritableFile env fname)) = true ->
  match build dbname env options table_cache iter meta0 newest_snapshot with
  | Returned s _ => s = status iter
  | Faulted _ _ => NDEBUG D = false
  end.
Proof.
  intros fname Hi Hc.
  destruct (entries iter) as [|[key value] rest] eqn:He.
  - rewrite BuildTable_empty by exact He. reflexivity.
  - destruct Hc as [Hc|Hs]; [discriminate|].
    destruct (BuildTable_after_pass D user_comparator
                earliest_seqno_in_memtable dbname env options table_cache
                iter meta0 newest_snapshot He Hs)
      as (l & [(Hn & w & st' & Ho' & _) | (Hhd & Hne & Ho')]).
    + rewrite Ho'. exact Hn.
    + cbv zeta in Ho'. rewrite Ho'. rewrite Hi.
      destruct (ok (Finish D l)); [|reflexivity].
      destruct (NDEBUG D); simpl; [reflexivity|].
      destruct (0 <? FileSize D l)%N; reflexivity.
Qed.

(** C9.  In the purge loop, when the comparator finds the user key of the
    current entry equal to that of the pending one: if the current
    sequence number is strictly below the pending one, the entry is
    dropped, nothing is handed to the builder and the loop goes on with
    the same pending entry; if it is not, a build with asserts stops on
    the assert of line 77, which is a fault and not a returned status,
    while a build without them drops the entry all the same. *)
Theorem purge_loop_same_user_key
    (key value : Slice) (it : list (Slice * Slice))
    (prev_key prev_value : Slice) (prev_ikey : ParsedInternalKey)
    (st : State) :
  let this_ikey := ParseInternalKey D key in
  let loop := purge_loop D user_comparator earliest_seqno_in_memtable in
  Compare user_comparator (user_key prev_ikey) (user_key this_ikey) = 0%Z ->
  (earliest_seqno_in_memtable <= sequence this_ikey)%N ->
  ((sequence this_ikey < sequence prev_ikey)%N ->
   loop ((key, value) :: it) prev_key prev_value prev_ikey st =
   loop it prev_key prev_value prev_ikey st) /\
  ((sequence prev_ikey <= sequence this_ikey)%N ->
   loop ((key, value) :: it) prev_key prev_value prev_ikey st =
   if NDEBUG D then loop it prev_key prev_value prev_ikey st
   else Abort AssertSeqnoDecreasing st).
Proof.
  intros this_ikey loop Hcmp Hge. subst loop this_ikey. simpl.
  unfold bind at 1 3. unfold assert.
  apply N.leb_le in Hge. rewrite Hge, orb_true_r.
  apply Z.eqb_eq in Hcmp. rewrite Hcmp. simpl.
  unfold bind at 1 2. split; intros Hseq.
  - apply N.ltb_lt in Hseq. rewrite Hseq, orb_true_r. reflexivity.
  - apply N.ltb_ge in Hseq. rewrite Hseq, orb_false_r.
    destruct (NDEBUG D); reflexivity.
Qed.

End Claims.


(** ** Further properties of BuildTable *)

Lemma filter_created (p : Event -> bool) (f : string) (s : Status)
    (l : list (Slice * Slice)) (t : list Event) :
  (forall k v, p (EvAdd k v) = false) ->
  filter p (EvNewWritableFile f s :: add_events l ++ t) =
  filter p [EvNewWritableFile f s] ++ filter p t.
Proof.
  intros Ha. change (EvNewWritableFile f s :: add_events l ++ t)
    with ([EvNewWritableFile f s] ++ add_events l ++ t).
  rewrite !filter_app. f_equal.
  replace (filter p (add_events l)) with (@nil Event); [reflexivity|].
  induction l as [|[k v] l IH]; simpl; [reflexivity|]. now rewrite Ha.
Qed.


Lemma after_failure_created (f : string) (s : Status)
    (l : list (Slice * Slice)) (t : list Event) :
  ok s = true ->
  after_failure (EvNewWritableFile f s :: add_events l ++ t) =
  after_failure t.
Proof.
  intros Hs. simpl. unfold failed. simpl. rewrite Hs. simpl.
  induction l as [|[k v] l IH]; simpl; auto.
Qed.

Lemma cleanup_after_any_failure (t : list Event) :
  forallb is_cleanup (after_failure t) = true ->
  forall t1 e t2, t = t1 ++ e :: t2 -> failed e = true ->
                  forallb is_cleanup t2 = true.
Proof.
  intros H t1. revert t H.
  induction t1 as [|x t1 IH]; intros t H e t2 Ht He; subst t; simpl in H.
  - now rewrite He in H.
  - destruct (failed x) eqn:Hx.
    + rewrite forallb_app in H. apply andb_prop in H. destruct H as [_ H].
      simpl in H. apply andb_prop in H. destruct H as [Hc _].
      destruct e; simpl in Hc; try discriminate; discriminate He.
    + eapply IH; eauto.
Qed.

Lemma disk_after_no_delete (t : list Event) (d : Disk) (f : string) :
  existsb is_delete t = false -> d f = true -> disk_after d t f = true.
Proof.
  revert d. induction t as [|e t IH]; intros d Ht Hd; [exact Hd|].
  simpl in Ht. apply orb_false_elim in Ht. destruct Ht as [He Ht].
  simpl. apply IH; [exact Ht|].
  destruct e; simpl in *; try exact Hd; try discriminate.
  destruct (ok r); [|exact Hd]. now destruct (String.eqb f fname).
Qed.

Lemma disk_after_created_kept (d : Disk) (f : string) (s : Status)
    (t : list Event) :
  ok s = true -> existsb is_delete t = false ->
  disk_after d (EvNewWritableFile f s :: t) f = true.
Proof.
  intros Hs Ht. simpl. apply disk_after_no_delete; [exact Ht|].
  simpl. rewrite Hs. now rewrite String.eqb_refl.
Qed.

Lemma In_created (e : Event) (f : string) (s : Status)
    (l : list (Slice * Slice)) (t : list Event) :
  In e (EvNewWritableFile f s :: add_events l ++ t) ->
  e = EvNewWritableFile f s \/ (exists k v, e = EvAdd k v) \/ In e t.
Proof.
  intros [H|H]; [now left|right].
  apply in_app_or in H. destruct H as [H|H]; [left|now right].
  now apply In_add_events in H.
Qed.

Section More.

Variable D : Deps.
Variable user_comparator : Comparator.
Variable earliest_seqno_in_memtable : SequenceNumber.

Local Abbreviation run :=
  (BuildTable D user_comparator earliest_seqno_in_memtable).

(** Splits a goal about a call into the ways the call can end: empty
    source, file not created, an assert of the pass, or the stages after
    the pass. *)
Ltac by_outcome dbname env options table_cache iter meta0 newest_snapshot :=
  let He := fresh "He" in
  let Hs := fresh "Hs" in
  destruct (entries iter) as [|[key value] rest] eqn:He;
  [ rewrite (@BuildTable_empty D user_comparator earliest_seqno_in_memtable
               dbname env options table_cache iter meta0 newest_snapshot He)
  | destruct (ok (fst (NewWritableFile env
                         (TableFileName D dbname (number meta0))))) eqn:Hs;
    [ destruct (@BuildTable_after_pass D user_comparator
                  earliest_seqno_in_memtable dbname env options table_cache
                  iter meta0 newest_snapshot key value rest He Hs)
        as (l & [(Hn & w & st & Ho & Hw & Ht & Hz) | (Hhd & Hne & Ho)]);
      [ rewrite Ho
      | cbv zeta in Ho; rewrite Ho; clear Ho ]
    | rewrite (@BuildTable_creation_failed D user_comparator
                 earliest_seqno_in_memtable dbname env options table_cache
                 iter meta0 newest_snapshot);
      [ | rewrite He; discriminate | exact Hs ] ] ].

(** Destructs every answer the stages after the pass depend on. *)
Ltac by_answers env dbname options table_cache iter meta0 l :=
  destruct (Finish D l) as [|? ?];
  [ destruct (disableDataSync options), (use_fsync options),
      (Fsync (snd (NewWritableFile env
                     (TableFileName D dbname (number meta0))))),
      (Sync (snd (NewWritableFile env
                    (TableFileName D dbname (number meta0))))),
      (Close (snd (NewWritableFile env
                     (TableFileName D dbname (number meta0))))),
      (NewIterator table_cache (number meta0) (FileSize D l)),
      (status iter), (NDEBUG D)
  | destruct (status iter) ];
  destruct (0 <? FileSize D l)%N eqn:Hpos;
  cbn [orb andb ok app outcome_state trace meta].

(** X1.  Whatever the source, the options and the answers of the
    collaborators, [BuildTable] never calls [Abandon] on the table
    builder. *)
Theorem BuildTable_never_abandons
    (dbname : string) (env : Env) (options : Options)
    (table_cache : TableCache) (iter : Iterator) (meta0 : FileMetaData)
    (newest_snapshot : SequenceNumber) :
  existsb is_abandon
    (trace (outcome_state
              (run dbname env options table_cache iter meta0
                   newest_snapshot))) = false.
Proof.
  by_outcome dbname env options table_cache iter meta0 newest_snapshot.
  - reflexivity.
  - simpl. rewrite Ht. simpl. now apply existsb_add_events.
  - by_answers env dbname options table_cache iter meta0 l;
      now rewrite existsb_created by reflexivity.
  - reflexivity.
Qed.


(** X3.  Once a collaborator has answered a call with an error, the only
    calls [BuildTable] still makes are the deletion of the builder and the
    deletion of the file. *)
Theorem BuildTable_only_cleans_up_after_failure
    (dbname : string) (env : Env) (options : Options)
    (table_cache : TableCache) (iter : Iterator) (meta0 : FileMetaData)
    (newest_snapshot : SequenceNumber) :
  forall t1 e t2,
    trace (outcome_state
             (run dbname env options table_cache iter meta0
                  newest_snapshot)) = t1 ++ e :: t2 ->
    failed e = true ->
    forallb is_cleanup t2 = true.
Proof.
  apply cleanup_after_any_failure.
  by_outcome dbname env options table_cache iter meta0 newest_snapshot.
  - reflexivity.
  - simpl outcome_state. rewrite Ht. rewrite <- (app_nil_r (add_events l)).
    now rewrite after_failure_created by exact Hs.
  - by_answers env dbname options table_cache iter meta0 l;
      now rewrite after_failure_created by exact Hs.
  - simpl. unfold failed. simpl. now rewrite Hs.
Qed.

(** X4.  Unless the call returned early because the output file could not
    be created, a call that returns has deleted the file exactly when it
    does not return OK with a positive [file_size], and at most once; and
    when it returns OK with a positive [file_size] the file is on disk. *)
Theorem BuildTable_deletes_unless_kept
    (dbname : string) (env : Env) (options : Options)
    (table_cache : TableCache) (iter : Iterator) (meta0 : FileMetaData)
    (newest_snapshot : SequenceNumber) (disk : Disk) :
  let fname := TableFileName D dbname (number meta0) in
  let o := run dbname env options table_cache iter meta0 newest_snapshot in
  let st := outcome_state o in
  entries iter = [] \/ ok (fst (NewWritableFile env fname)) = true ->
  forall s, returned_status o = Some s ->
    let kept := ok s && (0 <? file_size (meta st))%N in
    existsb is_delete (trace st) = negb kept /\
    (count is_delete (trace st) <= 1)%nat /\
    (kept = true -> disk_after disk (trace st) fname = true).
Proof.
  cbv zeta. unfold count.
  by_outcome dbname env options table_cache iter meta0 newest_snapshot.
  - intros _ s H. inversion H; subst; clear H. simpl.
    rewrite andb_false_r. simpl. split; [reflexivity|]. split; [lia|].
    discriminate.
  - intros _ s H. discriminate H.
  - intros _.
    by_answers env dbname options table_cache iter meta0 l;
      intros s H; inversion H; subst; clear H;
      cbn [ok andb negb file_size];
      rewrite existsb_created, filter_created by reflexivity;
      cbn [existsb is_delete orb filter app List.length];
      rewrite ?Hpos; cbn [negb andb];
      (split; [reflexivity|]); (split; [lia|]);
      intros Hk; try discriminate Hk;
      (apply disk_after_created_kept;
       [exact Hs
       |now rewrite existsb_app, existsb_add_events by reflexivity]).
  - intros [H|H]; [discriminate H|]. discriminate H.
Qed.

(** X5.  A call on a non-empty source that returns OK has made exactly
    these calls, in this order, each answered OK: create the file, add the
    entries, finish and delete the builder, sync (unless disabled; [Fsync]
    under [use_fsync], else [Sync]), close, and open the table through the
    table cache under the file's number and the size the builder reported,
    which is the [file_size] it leaves; only if that size is 0 is the file
    then deleted.  The source's own status is OK as well. *)
Theorem BuildTable_success_trace
    (dbname : string) (env : Env) (options : Options)
    (table_cache : TableCache) (iter : Iterator) (meta0 : FileMetaData)
    (newest_snapshot : SequenceNumber) :
  let fname := TableFileName D dbname (number meta0) in
  let o := run dbname env options table_cache iter meta0 newest_snapshot in
  let st := outcome_state o in
  let adds := adds_of (trace st) in
  entries iter <> [] ->
  returned_status o = Some OK ->
  ok (status iter) = true /\
  file_size (meta st) = FileSize D adds /\
  trace st =
    EvNewWritableFile fname OK :: add_events adds ++
    [EvFinish OK; EvDeleteBuilder] ++
    (if disableDataSync options then []
     else [if use_fsync options then EvFsync OK else EvSync OK]) ++
    [EvClose OK; EvNewIterator (number meta0) (file_size (meta st)) OK] ++
    (if (0 <? file_size (meta st))%N then [] else [EvDeleteFile fname]).
Proof.
  cbv zeta.
  by_outcome dbname env options table_cache iter meta0 newest_snapshot.
  - intros H. now elim H.
  - intros _ H. discriminate H.
  - intros _.
    destruct (fst (NewWritableFile env
                     (TableFileName D dbname (number meta0))));
      [|discriminate Hs].
    by_answers env dbname options table_cache iter meta0 l;
      intros H; inversion H; subst; clear H;
      cbn [file_size meta]; rewrite adds_of_created;
      cbn [adds_of]; rewrite app_nil_r; rewrite ?Hpos;
      repeat split; reflexivity.
  - intros _ H. inversion H as [H1]. rewrite H1 in Hs. discriminate Hs.
Qed.

(** X6.  Once the output file is created, the status a call returns is
    the source's status if that is an error, and otherwise the first
    error among the answers of [Finish], the sync (when not disabled),
    [Close] and the table cache, or OK when there is none. *)
Theorem BuildTable_reports_first_failure
    (dbname : string) (env : Env) (options : Options)
    (table_cache : TableCache) (iter : Iterator) (meta0 : FileMetaData)
    (newest_snapshot : SequenceNumber) :
  let fname := TableFileName D dbname (number meta0) in
  let file := snd (NewWritableFile env fname) in
  let o := run dbname env options table_cache iter meta0 newest_snapshot in
  let adds := adds_of (trace (outcome_state o)) in
  entries iter <> [] ->
  ok (fst (NewWritableFile env fname)) = true ->
  forall s, returned_status o = Some s ->
    s = if ok (status iter) then
          first_failure
            [Finish D adds;
             if disableDataSync options then OK
             else if use_fsync options then Fsync file else Sync file;
             Close file;
             NewIterator table_cache (number meta0) (FileSize D adds)]
        else status iter.
Proof.
  cbv zeta.
  by_outcome dbname env options table_cache iter meta0 newest_snapshot.
  - intros H. now elim H.
  - intros _ _ s H. discriminate H.
  - intros _ _ s.
    assert (Hadds : forall t, adds_of t = [] ->
              adds_of (EvNewWritableFile
                         (TableFileName D dbname (number meta0))
                         (fst (NewWritableFile env
                                 (TableFileName D dbname (number meta0))))
                       :: add_events l ++ t) = l).
    { intros t Ht. rewrite adds_of_created, Ht. apply app_nil_r. }
    destruct (Finish D l) as [|code msg] eqn:Hf.
    + destruct (disableDataSync options), (use_fsync options),
        (Fsync (snd (NewWritableFile env
                       (TableFileName D dbname (number meta0))))) eqn:Hy1,
        (Sync (snd (NewWritableFile env
                      (TableFileName D dbname (number meta0))))) eqn:Hy2,
        (Close (snd (NewWritableFile env
                       (TableFileName D dbname (number meta0))))) eqn:Hc,
        (NewIterator table_cache (number meta0) (FileSize D l)) eqn:Hv,
        (status iter), (NDEBUG D);
        destruct (0 <? FileSize D l)%N;
        cbn [orb andb ok app outcome_state trace meta returned_status];
        intros H; inversion H; subst; clear H;
        rewrite ?Hadds by reflexivity; rewrite ?Hf, ?Hv;
        reflexivity.
    + cbn [ok outcome_state trace returned_status].
      intros H. inversion H; subst; clear H.
      rewrite Hadds by reflexivity. rewrite Hf.
      destruct (status iter); reflexivity.
  - congruence.
Qed.

(** X7.  [BuildTable] never changes the file's [number]; and when the
    source is empty or the output file cannot be created it leaves
    [smallest] and [largest] as they were and [file_size] at 0. *)
Theorem BuildTable_descriptor_frame
    (dbname : string) (env : Env) (options : Options)
    (table_cache : TableCache) (iter : Iterator) (meta0 : FileMetaData)
    (newest_snapshot : SequenceNumber) :
  let fname := TableFileName D dbname (number meta0) in
  let st := outcome_state
              (run dbname env options table_cache iter meta0
                   newest_snapshot) in
  number (meta st) = number meta0 /\
  (entries iter = [] \/ ok (fst (NewWritableFile env fname)) = false ->
   smallest (meta st) = smallest meta0 /\
   largest (meta st) = largest meta0 /\
   file_size (meta st) = 0%N).
Proof.
  cbv zeta.
  destruct (entries iter) as [|[key value] rest] eqn:He.
  - rewrite BuildTable_empty by exact He. simpl. auto.
  - destruct (ok (fst (NewWritableFile env
                         (TableFileName D dbname (number meta0))))) eqn:Hs.
    + split; [|intros [H|H]; discriminate H].
      erewrite BuildTable_created; try exact He; try exact Hs.
      match goal with
      | |- context [write_pass D ?c ?e ?p ?k ?v ?r ?st1] =>
          destruct (write_pass_trace D c e p k v r st1)
            as (_ & Hnum & _ & Hret & _);
          destruct (write_pass D c e p k v r st1) as [u st2|s st2|w st2]
      end; simpl in Hnum; [|exfalso; eapply Hret; reflexivity|exact Hnum].
      match goal with
      | |- context [finish_file D ?s ?f ?o ?t ?st2] =>
          pose proof (finish_file_frame D s f o t st2) as Hf;
          destruct (finish_file D s f o t st2) as [s1 st3|s1 st3|w st3]
      end; simpl in Hf; destruct Hf as (_ & Hn & _); simpl; congruence.
    + rewrite BuildTable_creation_failed;
        [|rewrite He; discriminate|exact Hs].
      simpl. auto.
Qed.

(** X8.  [file_size] is the size the builder reported if [Finish]
    answered OK, and 0 in every other case. *)
Theorem BuildTable_file_size
    (dbname : string) (env : Env) (options : Options)
    (table_cache : TableCache) (iter : Iterator) (meta0 : FileMetaData)
    (newest_snapshot : SequenceNumber) :
  let st := outcome_state
              (run dbname env options table_cache iter meta0
                   newest_snapshot) in
  file_size (meta st) =
  if existsb is_finish_ok (trace st)
  then FileSize D (adds_of (trace st)) else 0%N.
Proof.
  cbv zeta.
  by_outcome dbname env options table_cache iter meta0 newest_snapshot.
  - reflexivity.
  - simpl outcome_state. rewrite Ht, Hz.
    rewrite <- (app_nil_r (add_events l)).
    now rewrite existsb_created by reflexivity.
  - by_answers env dbname options table_cache iter meta0 l;
      rewrite existsb_created by reflexivity;
      cbn [existsb is_finish_ok orb file_size];
      rewrite ?adds_of_created; cbn [adds_of]; rewrite ?app_nil_r;
      reflexivity.
  - reflexivity.
Qed.


(** X16.  The table is re-opened through the table cache only after
    [Finish] and [Close] have both answered OK, and always under the
    file's number and the [file_size] left in the descriptor. *)
Theorem BuildTable_verifies_what_it_recorded
    (dbname : string) (env : Env) (options : Options)
    (table_cache : TableCache) (iter : Iterator) (meta0 : FileMetaData)
    (newest_snapshot : SequenceNumber) :
  let st := outcome_state
              (run dbname env options table_cache iter meta0
                   newest_snapshot) in
  forall n size r,
    In (EvNewIterator n size r) (trace st) ->
    n = number meta0 /\ size = file_size (meta st) /\
    In (EvFinish OK) (trace st) /\ In (EvClose OK) (trace st).
Proof.
  cbv zeta.
  by_outcome dbname env options table_cache iter meta0 newest_snapshot.
  - simpl. intros n size r [H|[]]. discriminate H.
  - simpl outcome_state. rewrite Ht. intros n size r H.
    rewrite <- (app_nil_r (add_events l)) in H.
    apply In_created in H. destruct H as [H|[(k & v & H)|[]]];
      discriminate H.
  - by_answers env dbname options table_cache iter meta0 l;
      intros n size r H; apply In_created in H;
      destruct H as [H|[(k & v & H)|H]]; try discriminate H;
      simpl in H;
      repeat match type of H with
             | _ \/ _ => destruct H as [H|H]
             | False => destruct H
             | _ = _ => first [discriminate H | inversion H; subst; clear H]
             end;
      cbn [file_size];
      (split; [reflexivity|]); (split; [reflexivity|]);
      split; right; apply in_or_app; right; simpl; tauto.
  - simpl. intros n size r [H|[]]. discriminate H.
Qed.

(** X17.  A call can only be stopped by an assert in a build that has
    them, and only after the output file was created; a call so stopped
    has not deleted the file, which is left on disk. *)
Theorem BuildTable_fault_leaves_file
    (dbname : string) (env : Env) (options : Options)
    (table_cache : TableCache) (iter : Iterator) (meta0 : FileMetaData)
    (newest_snapshot : SequenceNumber) (disk : Disk) :
  let fname := TableFileName D dbname (number meta0) in
  forall w st,
    run dbname env options table_cache iter meta0 newest_snapshot =
      Faulted w st ->
    NDEBUG D = false /\
    In (EvNewWritableFile fname OK) (trace st) /\
    existsb is_delete (trace st) = false /\
    disk_after disk (trace st) fname = true.
Proof.
  cbv zeta.
  by_outcome dbname env options table_cache iter meta0 newest_snapshot.
  - discriminate.
  - intros w' st' H. inversion H; subst; clear H.
    assert (Hnd : existsb is_delete (add_events l) = false)
      by (now apply existsb_add_events).
    destruct (fst (NewWritableFile env
                     (TableFileName D dbname (number meta0))));
      [|discriminate Hs].
    rewrite Ht. split; [exact Hn|]. split; [now left|].
    split; [exact Hnd|]. now apply disk_after_created_kept.
  - destruct (fst (NewWritableFile env
                     (TableFileName D dbname (number meta0))));
      [|discriminate Hs].
    by_answers env dbname options table_cache iter meta0 l;
      intros w' st' H; inversion H; subst; clear H;
      cbn [trace];
      (split; [reflexivity|]); (split; [now left|]);
      (assert (Hnd : existsb is_delete
                       (add_events l ++ [EvFinish OK]) = false)
         by (now rewrite existsb_app, existsb_add_events by reflexivity));
      (split; [exact Hnd|now apply disk_after_created_kept]).
  - discriminate.
Qed.

End More.

(** ** What the pass hands to the builder, for any source *)

Lemma subsequence_refl {A} (l : list A) : subsequence l l.
Proof. induction l; constructor; assumption. Qed.

Lemma subsequence_skip_second {A} (l l2 : list A) (x y : A) :
  subsequence l (x :: l2) -> subsequence l (x :: y :: l2).
Proof.
  intros H. inversion H; subst.
  - constructor.
  - apply subsequence_keep. now apply subsequence_skip.
  - apply subsequence_skip. now apply subsequence_skip.
Qed.

Lemma subsequence_Forall {A} (P : A -> Prop) (l1 l2 : list A) :
  subsequence l1 l2 -> Forall P l2 -> Forall P l1.
Proof.
  induction 1; intros HF.
  - constructor.
  - inversion HF; subst. constructor; auto.
  - inversion HF; subst. auto.
Qed.

Section Written.

Variable D : Deps.
Variable user_comparator : Comparator.
Variable earliest_seqno_in_memtable : SequenceNumber.

Local Abbreviation distinct := (no_adjacent_same D user_comparator).

(** The entries the purge loop accounts for when it stops: those handed to
    the builder, and the pending one if the loop ran to its end. *)
Lemma purge_loop_written (it : list (Slice * Slice))
    (prev_key prev_value : Slice) (st : State) (r : Res (Slice * Slice)) :
  r = purge_loop D user_comparator earliest_seqno_in_memtable it
                 prev_key prev_value (ParseInternalKey D prev_key) st ->
  exists l out,
    trace (res_state r) = trace st ++ add_events l /\
    out = match r with Next p _ => l ++ [p] | _ => l end /\
    subsequence out ((prev_key, prev_value) :: it) /\
    distinct out = true /\
    (forall x, hd_error out = Some x -> x = (prev_key, prev_value)).
Proof.
  revert prev_key prev_value st r.
  induction it as [|[key value] it IH]; intros pk pv st r Hr.
  - subst r. exists [], [(pk, pv)]. simpl. rewrite app_nil_r.
    repeat split; auto.
    + apply subsequence_refl.
    + intros x H. now inversion H.
  - simpl in Hr. unfold bind at 1 in Hr. unfold assert in Hr.
    destruct (NDEBUG D || (earliest_seqno_in_memtable <=?
                           sequence (ParseInternalKey D key))%N).
    2:{ subst r. exists [], []. simpl. rewrite app_nil_r.
        repeat split; auto; [constructor|discriminate]. }
    destruct (Compare user_comparator (user_key (ParseInternalKey D pk))
                (user_key (ParseInternalKey D key)) =? 0)%Z eqn:Hcmp;
      simpl in Hr.
    + unfold bind at 1 in Hr.
      destruct (NDEBUG D || _).
      2:{ subst r. exists [], []. simpl. rewrite app_nil_r.
          repeat split; auto; [constructor|discriminate]. }
      destruct (IH pk pv st r Hr) as (l & out & Ht & Ho & Hsub & Hd & Hh).
      exists l, out. repeat split; auto.
      now apply subsequence_skip_second.
    + unfold bind at 1 in Hr. unfold Add, emit in Hr.
      destruct (IH key value _ r Hr) as (l & out & Ht & Ho & Hsub & Hd & Hh).
      simpl in Ht.
      exists ((pk, pv) :: l), ((pk, pv) :: out).
      split; [rewrite Ht, <- app_assoc; reflexivity|].
      split; [rewrite Ho; destruct r; reflexivity|].
      split; [now apply subsequence_keep|].
      split.
      * destruct out as [|x out']; [reflexivity|].
        rewrite (Hh x eq_refl) in *.
        change (negb (same_user_key D user_comparator (pk, pv) (key, value))
                && distinct ((key, value) :: out') = true).
        unfold same_user_key, entry_user_key. simpl fst.
        rewrite Hcmp, Hd. reflexivity.
      * intros x H. now inversion H.
Qed.

(** The pass, with or without purge, hands the builder a subsequence of the
    source, and with purge no two neighbours of it share a user key. *)
Lemma write_pass_written (purge : bool) (key value : Slice)
    (rest : list (Slice * Slice)) (st : State) :
  let r := write_pass D user_comparator earliest_seqno_in_memtable purge
                      key value rest st in
  exists out,
    trace (res_state r) = trace st ++ add_events out /\
    subsequence out ((key, value) :: rest) /\
    (purge = true -> distinct out = true).
Proof.
  cbv zeta. unfold write_pass. destruct purge.
  - unfold bind at 1. unfold assert.
    destruct (NDEBUG D || _).
    2:{ exists []. simpl. rewrite app_nil_r.
        repeat split; auto. constructor. }
    unfold bind at 1.
    match goal with
    | |- context [purge_loop _ _ _ rest key value _ ?st1] =>
        destruct (purge_loop_written rest key value st1 eq_refl)
          as (l & out & Ht & Ho & Hsub & Hd & _);
        destruct (purge_loop D user_comparator earliest_seqno_in_memtable
                             rest key value (ParseInternalKey D key) st1)
          as [p st'|s st'|w st']
    end; simpl in Ht; subst out.
    + exists (l ++ [p]). unfold bind, Add, emit, set_largest, update_meta.
      simpl. rewrite Ht. unfold add_events.
      rewrite map_app, <- app_assoc. auto.
    + exists l. simpl. auto.
    + exists l. simpl. auto.
  - rewrite copy_loop_run. simpl.
    exists ((key, value) :: rest).
    split; [reflexivity|]. split; [apply subsequence_refl|discriminate].
Qed.

(** The entries a call hands to the builder are those of its pass. *)
Lemma BuildTable_adds_of_pass (dbname : string) (env : Env)
    (options : Options) (table_cache : TableCache) (iter : Iterator)
    (meta0 : FileMetaData) (newest_snapshot : SequenceNumber)
    (key value : Slice) (rest : list (Slice * Slice)) :
  let fname := TableFileName D dbname (number meta0) in
  let s0 := fst (NewWritableFile env fname) in
  entries iter = (key, value) :: rest ->
  ok s0 = true ->
  adds_of (trace (outcome_state
                    (BuildTable D user_comparator earliest_seqno_in_memtable
                                dbname env options table_cache iter meta0
                                newest_snapshot))) =
  adds_of (trace (res_state
                    (write_pass D user_comparator earliest_seqno_in_memtable
                       (purge_decision earliest_seqno_in_memtable options
                                       newest_snapshot)
                       key value rest
                       (created_state fname s0 key meta0)))).
Proof.
  intros fname s0 He Hs.
  erewrite BuildTable_created; try exact He; try exact Hs.
  fold fname. fold s0.
  destruct (write_pass _ _ _ _ _ _ _ _) as [u st2|s st2|w st2];
    [|reflexivity|reflexivity].
  match goal with
  | |- context [finish_file D ?s ?f ?o ?t ?st2] =>
      pose proof (finish_file_frame D s f o t st2) as Hf;
      destruct (finish_file D s f o t st2) as [s1 st3|s1 st3|w st3]
  end; simpl in Hf; destruct Hf as (Ha & _); simpl;
    rewrite ?adds_of_app, Ha;
    try (match goal with
         | |- context [if ?b then [] else _] => destruct b
         end); simpl; rewrite ?app_nil_r; reflexivity.
Qed.

Local Abbreviation run' :=
  (BuildTable D user_comparator earliest_seqno_in_memtable).

(** X10.  Whatever happens, the entries handed to the table builder are a
    subsequence of the source's entries: nothing is invented, altered or
    reordered. *)
Theorem BuildTable_adds_subsequence
    (dbname : string) (env : Env) (options : Options)
    (table_cache : TableCache) (iter : Iterator) (meta0 : FileMetaData)
    (newest_snapshot : SequenceNumber) :
  subsequence
    (adds_of (trace (outcome_state
                       (run' dbname env options table_cache iter meta0
                             newest_snapshot))))
    (entries iter).
Proof.
  destruct (entries iter) as [|[key value] rest] eqn:He.
  - rewrite BuildTable_empty by exact He. constructor.
  - destruct (ok (fst (NewWritableFile env
                         (TableFileName D dbname (number meta0))))) eqn:Hs.
    + rewrite (BuildTable_adds_of_pass _ _ _ _ _ _ _ He Hs).
      match goal with
      | |- context [write_pass D ?c ?e ?p ?k ?v ?r ?st1] =>
          destruct (write_pass_written p k v r st1) as (out & Ht & Hsub & _)
      end.
      cbv zeta in Ht. rewrite Ht. simpl. now rewrite adds_of_add_events.
    + rewrite BuildTable_creation_failed;
        [|rewrite He; discriminate|exact Hs].
      constructor.
Qed.

(** X11.  When the purge decision is positive, no two consecutive entries
    handed to the table builder share a user key, whatever the source and
    the comparator. *)
Theorem BuildTable_purge_output_distinct
    (dbname : string) (env : Env) (options : Options)
    (table_cache : TableCache) (iter : Iterator) (meta0 : FileMetaData)
    (newest_snapshot : SequenceNumber) :
  purge_decision earliest_seqno_in_memtable options newest_snapshot = true ->
  distinct
    (adds_of (trace (outcome_state
                       (run' dbname env options table_cache iter meta0
                             newest_snapshot)))) = true.
Proof.
  intros Hd.
  destruct (entries iter) as [|[key value] rest] eqn:He.
  - rewrite BuildTable_empty by exact He. reflexivity.
  - destruct (ok (fst (NewWritableFile env
                         (TableFileName D dbname (number meta0))))) eqn:Hs.
    + rewrite (BuildTable_adds_of_pass _ _ _ _ _ _ _ He Hs).
      match goal with
      | |- context [write_pass D ?c ?e ?p ?k ?v ?r ?st1] =>
          destruct (write_pass_written p k v r st1) as (out & Ht & _ & Hdis)
      end.
      cbv zeta in Ht. rewrite Ht. simpl. rewrite adds_of_add_events.
      apply Hdis. exact Hd.
    + rewrite BuildTable_creation_failed;
        [|rewrite He; discriminate|exact Hs].
      reflexivity.
Qed.

Lemma purge_written_distinct (it : list (Slice * Slice))
    (p : Slice * Slice) :
  distinct (p :: it) = true ->
  purge_written D user_comparator it p = p :: it.
Proof.
  revert p. induction it as [|this it IH]; intros p Hd; [reflexivity|].
  rewrite purge_written_cons.
  change (negb (same_user_key D user_comparator p this)
          && distinct (this :: it) = true) in Hd.
  apply andb_prop in Hd. destruct Hd as [Hs Hd].
  apply negb_true_iff in Hs. rewrite Hs. now rewrite IH.
Qed.

Lemma purge_checks_distinct (it : list (Slice * Slice))
    (p : Slice * Slice) :
  distinct (p :: it) = true ->
  Forall (fun e => (earliest_seqno_in_memtable <= entry_sequence D e)%N) it ->
  purge_checks D user_comparator earliest_seqno_in_memtable it p = true.
Proof.
  revert p. induction it as [|this it IH]; intros p Hd Hall; [reflexivity|].
  change (negb (same_user_key D user_comparator p this)
          && distinct (this :: it) = true) in Hd.
  apply andb_prop in Hd. destruct Hd as [Hs Hd].
  apply negb_true_iff in Hs. inversion Hall; subst.
  simpl. rewrite Hs. apply andb_true_intro. split.
  - now apply N.leb_le.
  - now apply IH.
Qed.

(** A source without repeated user keys goes through the purge pass
    unchanged. *)
Lemma BuildTable_purge_copies_distinct (dbname : string) (env : Env)
    (options : Options) (table_cache : TableCache) (iter : Iterator)
    (meta0 : FileMetaData) (newest_snapshot : SequenceNumber) :
  purge_decision earliest_seqno_in_memtable options newest_snapshot = true ->
  ok (fst (NewWritableFile env (TableFileName D dbname (number meta0))))
    = true ->
  distinct (entries iter) = true ->
  NDEBUG D = true \/
  Forall (fun e => (earliest_seqno_in_memtable <= entry_sequence D e)%N)
         (entries iter) ->
  adds_of (trace (outcome_state
                    (run' dbname env options table_cache iter meta0
                          newest_snapshot))) = entries iter.
Proof.
  intros Hd Hs Hdis Hchk.
  destruct (entries iter) as [|[key value] rest] eqn:He.
  - rewrite BuildTable_empty by exact He. reflexivity.
  - rewrite (BuildTable_adds_of_pass _ _ _ _ _ _ _ He Hs). rewrite Hd.
    rewrite write_pass_purge_run.
    + simpl. rewrite adds_of_add_events.
      now apply purge_written_distinct.
    + destruct Hchk as [Hn|Hall]; [now left|right].
      inversion Hall; subst. split; [now apply N.leb_le|].
      now apply purge_checks_distinct.
Qed.

(** X12.  With a positive purge decision and the output file created, a
    source in which no two consecutive entries share a user key is handed
    to the table builder unchanged, provided no entry is below
    [earliest_seqno_in_memtable] or asserts are compiled out. *)
Theorem BuildTable_purge_keeps_distinct_source
    (dbname : string) (env : Env) (options : Options)
    (table_cache : TableCache) (iter : Iterator) (meta0 : FileMetaData)
    (newest_snapshot : SequenceNumber) :
  purge_decision earliest_seqno_in_memtable options newest_snapshot = true ->
  ok (fst (NewWritableFile env (TableFileName D dbname (number meta0))))
    = true ->
  distinct (entries iter) = true ->
  NDEBUG D = true \/
  Forall (fun e => (earliest_seqno_in_memtable <= entry_sequence D e)%N)
         (entries iter) ->
  adds_of (trace (outcome_state
                    (run' dbname env options table_cache iter meta0
                          newest_snapshot))) = entries iter.
Proof.
  intros Hd Hs Hdis Hchk.
  destruct (entries iter) as [|[key value] rest] eqn:He.
  - rewrite BuildTable_empty by exact He. reflexivity.
  - rewrite (BuildTable_adds_of_pass _ _ _ _ _ _ _ He Hs). rewrite Hd.
    rewrite write_pass_purge_run.
    + simpl. rewrite adds_of_add_events.
      now apply purge_written_distinct.
    + destruct Hchk as [Hn|Hall]; [now left|right].
      inversion Hall; subst. split; [now apply N.leb_le|].
      now apply purge_checks_distinct.
Qed.

(** X13.  Purging is idempotent: what a purging call handed to the table
    builder, given as the source of a second purging call, is handed to
    the builder unchanged. *)
Theorem BuildTable_purge_idempotent
    (dbname : string) (env : Env) (options : Options)
    (table_cache : TableCache) (iter iter2 : Iterator)
    (meta0 : FileMetaData) (newest_snapshot : SequenceNumber) :
  purge_decision earliest_seqno_in_memtable options newest_snapshot = true ->
  ok (fst (NewWritableFile env (TableFileName D dbname (number meta0))))
    = true ->
  NDEBUG D = true \/
  Forall (fun e => (earliest_seqno_in_memtable <= entry_sequence D e)%N)
         (entries iter) ->
  entries iter2 =
    adds_of (trace (outcome_state
                      (run' dbname env options table_cache iter meta0
                            newest_snapshot))) ->
  adds_of (trace (outcome_state
                    (run' dbname env options table_cache iter2 meta0
                          newest_snapshot))) = entries iter2.
Proof.
  intros Hd Hs Hchk H2.
  assert (Hfirst : distinct (entries iter2) = true /\
                   subsequence (entries iter2) (entries iter)).
  { rewrite H2. clear H2.
    destruct (entries iter) as [|[key value] rest] eqn:He.
    - rewrite BuildTable_empty by exact He. split; [reflexivity|constructor].
    - rewrite (BuildTable_adds_of_pass _ _ _ _ _ _ _ He Hs).
      match goal with
      | |- context [write_pass D ?c ?e ?p ?k ?v ?r ?st1] =>
          destruct (write_pass_written p k v r st1)
            as (out & Ht & Hsub & Hdis)
      end.
      cbv zeta in Ht. rewrite Ht. simpl. rewrite adds_of_add_events.
      split; [apply Hdis; exact Hd|exact Hsub]. }
  destruct Hfirst as [Hdis Hsub].
  apply BuildTable_purge_copies_distinct; auto.
  destruct Hchk as [Hn|Hall]; [now left|right].
  eapply subsequence_Forall; eauto.
Qed.

(** X14.  When the purge decision is negative the call does not depend on
    how internal keys parse nor on the user comparator: it proceeds the
    same under any other parser and comparator. *)
Theorem BuildTable_copy_ignores_keys
    (dbname : string) (env : Env) (options : Options)
    (table_cache : TableCache) (iter : Iterator) (meta0 : FileMetaData)
    (newest_snapshot : SequenceNumber)
    (parse : Slice -> ParsedInternalKey) (comparator : Comparator) :
  purge_decision earliest_seqno_in_memtable options newest_snapshot = false ->
  BuildTable (with_parser D parse) comparator earliest_seqno_in_memtable
             dbname env options table_cache iter meta0 newest_snapshot =
  run' dbname env options table_cache iter meta0 newest_snapshot.
Proof.
  intros Hd. unfold BuildTable, BuildTable_body. rewrite Hd.
  reflexivity.
Qed.

Lemma purge_checks_below (it : list (Slice * Slice)) (p : Slice * Slice) :
  Exists (fun e => (entry_sequence D e < earliest_seqno_in_memtable)%N) it ->
  purge_checks D user_comparator earliest_seqno_in_memtable it p = false.
Proof.
  revert p. induction it as [|this it IH]; intros p Hex;
    [inversion Hex|].
  simpl. inversion Hex as [? ? Hlt|? ? Hin]; subst.
  - replace (earliest_seqno_in_memtable <=? entry_sequence D this)%N
      with false by (symmetry; apply N.leb_gt; exact Hlt).
    reflexivity.
  - rewrite !(IH _ Hin). rewrite andb_false_r.
    destruct (same_user_key D user_comparator p this);
      now rewrite andb_false_r.
Qed.

(** X15.  In a build with asserts, a purging call whose source holds an
    entry with a sequence number below [earliest_seqno_in_memtable] stops
    on a failed assert after creating the output file: it returns no
    status and does not delete the file. *)
Theorem BuildTable_purge_faults_below_earliest
    (dbname : string) (env : Env) (options : Options)
    (table_cache : TableCache) (iter : Iterator) (meta0 : FileMetaData)
    (newest_snapshot : SequenceNumber) (disk : Disk) :
  let fname := TableFileName D dbname (number meta0) in
  NDEBUG D = false ->
  purge_decision earliest_seqno_in_memtable options newest_snapshot = true ->
  ok (fst (NewWritableFile env fname)) = true ->
  Exists (fun e => (entry_sequence D e < earliest_seqno_in_memtable)%N)
         (entries iter) ->
  exists w st,
    run' dbname env options table_cache iter meta0 newest_snapshot =
      Faulted w st /\
    w <> AssertFileSize /\
    existsb is_delete (trace st) = false /\
    disk_after disk (trace st) fname = true.
Proof.
  intros fname Hn Hd Hs Hex.
  destruct (entries iter) as [|[key value] rest] eqn:He; [inversion Hex|].
  assert (Hf : exists w st,
             run' dbname env options table_cache iter meta0 newest_snapshot
             = Faulted w st /\ w <> AssertFileSize).
  { destruct (earliest_seqno_in_memtable <=? entry_sequence D (key, value))%N
      eqn:Hfirst.
    - inversion Hex as [? ? Hlt|? ? Hin]; subst.
      + apply N.leb_le in Hfirst. lia.
      + destruct (BuildTable_purge_violation_faults D user_comparator
                    earliest_seqno_in_memtable dbname env options table_cache
                    iter meta0 newest_snapshot Hn He Hs Hd Hfirst
                    (@purge_checks_below rest (key, value) Hin))
          as (w & st & Ho & Hw).
        exists w, st. split; [exact Ho|].
        destruct Hw; subst; discriminate.
    - erewrite BuildTable_created; try exact He; try exact Hs.
      rewrite Hd. unfold write_pass. unfold bind at 1. unfold assert.
      unfold entry_sequence in Hfirst. simpl in Hfirst.
      rewrite Hfirst, Hn. simpl.
      eexists. eexists. split; [reflexivity|discriminate]. }
  destruct Hf as (w & st & Ho & Hw).
  exists w, st. split; [exact Ho|]. split; [exact Hw|].
  destruct (BuildTable_after_pass D user_comparator
              earliest_seqno_in_memtable dbname env options table_cache
              iter meta0 newest_snapshot He Hs)
    as (l & [(_ & w' & st' & Ho' & _ & Ht & _) | (_ & _ & Ho')]).
  - rewrite Ho in Ho'. inversion Ho'; subst.
    assert (Hnd : existsb is_delete (add_events l) = false)
      by (now apply existsb_add_events).
    rewrite Ht. split.
    + simpl. exact Hnd.
    + apply disk_after_created_kept; [exact Hs|exact Hnd].
  - exfalso. cbv zeta in Ho'. rewrite Ho in Ho'.
    destruct (ok (Finish D l)); [|discriminate Ho'].
    destruct (NDEBUG D || _); [discriminate Ho'|].
    inversion Ho'; subst. now apply Hw.
Qed.

End Written.

(** ** The sample instance satisfies the hypotheses *)

Lemma string_compare_refl (s : string) : String.compare s s = Eq.
Proof.
  pose proof (String.compare_antisym s s) as H.
  destruct (String.compare s s); simpl in H; congruence.
Qed.

Lemma bytewise_zero (a b : Slice) :
  Compare Sample.bytewise a b = 0%Z <-> a = b.
Proof.
  simpl. split.
  - destruct (String.compare a b) eqn:E; try discriminate.
    intros _. now apply String.compare_eq_iff.
  - intros ->. now rewrite string_compare_refl.
Qed.

Lemma bytewise_equiv : comparator_equiv Sample.bytewise.
Proof.
  repeat split.
  - intros a. now apply bytewise_zero.
  - intros a b H. apply bytewise_zero in H. now apply bytewise_zero.
  - intros a b c H1 H2. apply bytewise_zero in H1, H2.
    apply bytewise_zero. congruence.
Qed.

(** ** The specification's examples, run on the model *)

Section Examples.

Import Sample.
Local Open Scope N_scope.
Local Open Scope string_scope.

(** Example 1: purge enabled, earliest 3, watermark 2. *)
Example spec_example_1 :
  let o := BuildTable (deps false) bytewise 3 "db" env_ok
                      purge_on cache_ok three meta0 2 in
  returned_status o = Some OK /\
  adds_of (trace (outcome_state o)) = [a5; b4] /\
  smallest (meta (outcome_state o)) = fst a5 /\
  largest (meta (outcome_state o)) = fst b4.
Proof. vm_compute. repeat split. Qed.

(** Example 2: the same with watermark 4. *)
Example spec_example_2 :
  let o := BuildTable (deps false) bytewise 3 "db" env_ok
                      purge_on cache_ok three meta0 4 in
  returned_status o = Some OK /\
  adds_of (trace (outcome_state o)) = [a5; a3; b4] /\
  largest (meta (outcome_state o)) = fst b4.
Proof. vm_compute. repeat split. Qed.

(** Two versions of a user key in ascending sequence order: a build with
    asserts stops on line 77, a build without them keeps the first. *)
Example versions_out_of_order :
  (exists st, BuildTable (deps false) bytewise 3 "db" env_ok
                purge_on cache_ok (source [a3; a5]) meta0 2
              = Faulted AssertSeqnoDecreasing st) /\
  (exists st, BuildTable (deps true) bytewise 3 "db" env_ok
                purge_on cache_ok (source [a3; a5]) meta0 2
              = Returned OK st /\ adds_of (trace st) = [a3]).
Proof. split; eexists; vm_compute; [reflexivity|split; reflexivity]. Qed.

End Examples.

(** ** Instances of the theorems and inputs on which the specification fails *)

Section Witnesses.

Import Sample.
Local Open Scope N_scope.
Local Open Scope string_scope.

Lemma BuildTable_purge_keeps_newest_of_each_run_witness :
  let st := outcome_state
              (BuildTable (deps false) bytewise 3 "db" env_ok purge_on
                          cache_ok three meta0 2) in
  adds_of (trace st) =
  map (newest (deps false)) (runs (deps false) bytewise (entries three)).
Proof.
  refine (proj1 (proj2
    (@BuildTable_purge_keeps_newest_of_each_run (deps false) bytewise 3
       "db" env_ok purge_on cache_ok three meta0 2 (fst a5) (snd a5)
       [a3; b4] bytewise_equiv _ _ _ _ _ _))).
  all: try reflexivity.
  repeat constructor; vm_compute; discriminate.
Defined.

Lemma BuildTable_snapshot_suppresses_purge_witness :
  adds_of (trace (outcome_state
                    (BuildTable (deps false) bytewise 3 "db" env_ok purge_on
                                cache_ok three meta0 4))) = entries three.
Proof.
  refine (proj2 (proj2
    (@BuildTable_snapshot_suppresses_purge (deps false) bytewise 3
       "db" env_ok purge_on cache_ok three meta0 4 _)) _).
  - lia.
  - reflexivity.
Defined.

Lemma BuildTable_without_purge_copies_input_witness :
  let st := outcome_state
              (BuildTable (deps false) bytewise 3 "db" env_ok purge_off
                          cache_ok three meta0 2) in
  adds_of (trace st) = entries three /\
  smallest (meta st) = fst a5 /\
  largest (meta st) = fst (last (entries three) a5).
Proof.
  refine (@BuildTable_without_purge_copies_input (deps false) bytewise 3
            "db" env_ok purge_off cache_ok three meta0 2 (fst a5) (snd a5)
            [a3; b4] _ _ _).
  all: reflexivity.
Defined.

Lemma BuildTable_empty_source_witness :
  let o := BuildTable (deps false) bytewise 3 "db" env_ok purge_on
                      cache_ok (source []) meta0 2 in
  returned_status o = Some OK /\
  trace (outcome_state o) = [EvDeleteFile (file_name "db" 7)] /\
  disk_after stale_disk (trace (outcome_state o)) (file_name "db" 7) = false /\
  file_size (meta (outcome_state o)) = 0.
Proof.
  refine (@BuildTable_empty_source (deps false) bytewise 3 "db" env_ok
            purge_on cache_ok (source []) meta0 2 stale_disk _ _).
  all: reflexivity.
Defined.

Lemma BuildTable_sync_then_close_witness :
  exists s st,
    BuildTable (deps false) bytewise 3 "db" (env_with sync_fails) purge_on
               cache_ok three meta0 2 = Returned s st /\
    syncs_of (trace st) = [EvSync (Error kIOError "disk full")] /\
    closes_of (trace st) = [] /\
    (forall t1 r t2, trace st = (t1 ++ EvClose r :: t2)%list ->
                     syncs_of t2 = []) /\
    (false = false -> ok s = false).
Proof.
  refine (@BuildTable_sync_then_close (deps false) bytewise 3 "db"
            (env_with sync_fails) purge_on cache_ok three meta0 2
            (fst a5) (snd a5) [a3; b4] _ _ _ _).
  - reflexivity.
  - reflexivity.
  - reflexivity.
  - right. reflexivity.
Defined.

Lemma BuildTable_late_failure_keeps_descriptor_witness :
  exists s st,
    BuildTable (deps false) bytewise 3 "db" (env_with sync_fails) purge_on
               cache_ok three meta0 2 = Returned s st /\
    file_size (meta st) = FileSize (deps false) (adds_of (trace st)) /\
    0 < file_size (meta st) /\
    smallest (meta st) = fst (hd a5 (adds_of (trace st))) /\
    largest (meta st) = fst (last (adds_of (trace st)) a5) /\
    (ok s = false ->
     last (trace st) EvDeleteBuilder = EvDeleteFile (file_name "db" 7) /\
     disk_after empty_disk (trace st) (file_name "db" 7) = false).
Proof.
  refine (@BuildTable_late_failure_keeps_descriptor (deps false) bytewise 3
            "db" (env_with sync_fails) purge_on cache_ok three meta0 2
            (fst a5) (snd a5) [a3; b4] empty_disk _ _ _ _).
  all: reflexivity.
Defined.

Lemma BuildTable_builder_error_witness :
  exists s st,
    BuildTable (failing_deps false) bytewise 3 "db" env_ok purge_on
               cache_ok (source [a5]) meta0 2 = Returned s st /\
    ok s = false /\
    existsb is_abandon (trace st) = false /\
    file_size (meta st) = 0 /\
    smallest (meta st) = fst (hd a5 (adds_of (trace st))) /\
    largest (meta st) = fst (last (adds_of (trace st)) a5) /\
    last (trace st) EvDeleteBuilder = EvDeleteFile (file_name "db" 7) /\
    disk_after empty_disk (trace st) (file_name "db" 7) = false.
Proof.
  refine (@BuildTable_builder_error (failing_deps false) bytewise 3
            "db" env_ok purge_on cache_ok (source [a5]) meta0 2
            (fst a5) (snd a5) [] empty_disk _ _ _).
  all: reflexivity.
Defined.

Lemma BuildTable_failure_cleanup_witness :
  let o := BuildTable (deps false) bytewise 3 "db" env_ok purge_off
                      cache_corrupt three meta0 2 in
  let st := outcome_state o in
  (entries three <> [] /\ ok OK = false /\
   Error kCorruption "bad block" = OK /\
   trace st = [EvNewWritableFile (file_name "db" 7) OK]) \/
  ((entries three = [] \/ ok OK = true) /\
   last (trace st) EvDeleteBuilder = EvDeleteFile (file_name "db" 7) /\
   disk_after empty_disk (trace st) (file_name "db" 7) = false).
Proof.
  refine (@BuildTable_failure_cleanup (deps false) bytewise 3 "db" env_ok
            purge_off cache_corrupt three meta0 2 empty_disk
            (Error kCorruption "bad block")
            (outcome_state
               (BuildTable (deps false) bytewise 3 "db" env_ok purge_off
                           cache_corrupt three meta0 2)) _ _).
  all: reflexivity.
Defined.

Lemma BuildTable_source_error_overrides_witness :
  match BuildTable (deps false) bytewise 3 "db" env_ok purge_on cache_ok
                   (broken_source [a5; a3; b4]) meta0 2 with
  | Returned s _ => s = Error kCorruption "truncated record"
  | Faulted _ _ => false = false
  end.
Proof.
  refine (@BuildTable_source_error_overrides (deps false) bytewise 3 "db"
            env_ok purge_on cache_ok (broken_source [a5; a3; b4]) meta0 2
            _ _).
  - reflexivity.
  - right. reflexivity.
Defined.

Lemma purge_loop_same_user_key_witness :
  let st := created_state (file_name "db" 7) OK (fst a5) meta0 in
  purge_loop (deps false) bytewise 3 [a3; b4] (fst a5) (snd a5)
             (parse (fst a5)) st =
  purge_loop (deps false) bytewise 3 [b4] (fst a5) (snd a5)
             (parse (fst a5)) st.
Proof.
  refine (proj1
    (@purge_loop_same_user_key (deps false) bytewise 3 (fst a3) (snd a3)
       [b4] (fst a5) (snd a5) (parse (fst a5))
       (created_state (file_name "db" 7) OK (fst a5) meta0) _ _) _).
  - reflexivity.
  - vm_compute. discriminate.
  - reflexivity.
Defined.

(** C4 fails when the output file cannot be created: the call returns the
    creation error having made no other call, so nothing is deleted, and a
    stale file of that name is still there afterwards. *)
Lemma BuildTable_creation_failure_skips_cleanup :
  let o := BuildTable (deps false) bytewise 3 "db" env_fail purge_on
                      cache_ok (source [a5]) meta0 2 in
  returned_status o = Some (Error kIOError "cannot create") /\
  trace (outcome_state o) =
    [EvNewWritableFile (file_name "db" 7) (Error kIOError "cannot create")] /\
  existsb is_delete (trace (outcome_state o)) = false /\
  last (trace (outcome_state o)) EvDeleteBuilder
    <> EvDeleteFile (file_name "db" 7) /\
  disk_after stale_disk (trace (outcome_state o)) (file_name "db" 7) = true.
Proof. vm_compute. repeat split. discriminate. Qed.

(** C5 fails on a one-entry source whose table builder reports a write
    error: the builder is finished, not abandoned, and [smallest] and
    [largest] no longer have the value they had on entry. *)
Lemma BuildTable_builder_error_finishes :
  let o := BuildTable (failing_deps false) bytewise 3 "db" env_ok purge_on
                      cache_ok (source [a5]) meta0 2 in
  returned_status o = Some (Error kIOError "write failed") /\
  trace (outcome_state o) =
    [EvNewWritableFile (file_name "db" 7) OK; EvAdd (fst a5) (snd a5);
     EvFinish (Error kIOError "write failed"); EvDeleteBuilder;
     EvDeleteFile (file_name "db" 7)] /\
  existsb is_abandon (trace (outcome_state o)) = false /\
  smallest (meta (outcome_state o)) = fst a5 /\
  largest (meta (outcome_state o)) = fst a5 /\
  smallest (meta (outcome_state o)) <> smallest meta0 /\
  largest (meta (outcome_state o)) <> largest meta0.
Proof. vm_compute. repeat split; discriminate. Qed.

(** C8 fails when the output file cannot be created: the source's error
    status is never consulted and the call returns the creation error. *)
Lemma BuildTable_creation_failure_hides_source_error :
  let iter := broken_source [a5] in
  let o := BuildTable (deps false) bytewise 3 "db" env_fail purge_on
                      cache_ok iter meta0 2 in
  ok (status iter) = false /\
  returned_status o = Some (Error kIOError "cannot create") /\
  returned_status o <> Some (status iter).
Proof. vm_compute. repeat split. discriminate. Qed.


Lemma BuildTable_only_cleans_up_after_failure_witness :
  forallb is_cleanup [EvDeleteFile (file_name "db" 7)] = true.
Proof.
  refine (@BuildTable_only_cleans_up_after_failure (deps false) bytewise 3
            "db" (env_with sync_fails) purge_on cache_ok three meta0 2
            [EvNewWritableFile (file_name "db" 7) OK;
             EvAdd (fst a5) (snd a5); EvAdd (fst b4) (snd b4);
             EvFinish OK; EvDeleteBuilder]
            (EvSync (Error kIOError "disk full"))
            [EvDeleteFile (file_name "db" 7)] _ _).
  all: reflexivity.
Defined.

Lemma BuildTable_deletes_unless_kept_witness :
  disk_after empty_disk
    (trace (outcome_state
              (BuildTable (deps false) bytewise 3 "db" env_ok purge_on
                          cache_ok three meta0 2)))
    (file_name "db" 7) = true.
Proof.
  refine (proj2 (proj2
    (@BuildTable_deletes_unless_kept (deps false) bytewise 3 "db" env_ok
       purge_on cache_ok three meta0 2 empty_disk _ OK _)) _).
  - right. reflexivity.
  - reflexivity.
  - reflexivity.
Defined.

Lemma BuildTable_success_trace_witness :
  let st := outcome_state
              (BuildTable (deps false) bytewise 3 "db" env_ok purge_on
                          cache_ok three meta0 2) in
  file_size (meta st) = FileSize (deps false) (adds_of (trace st)).
Proof.
  refine (proj1 (proj2
    (@BuildTable_success_trace (deps false) bytewise 3 "db" env_ok purge_on
       cache_ok three meta0 2 _ _))).
  - discriminate.
  - reflexivity.
Defined.

Lemma BuildTable_reports_first_failure_witness :
  let o := BuildTable (deps false) bytewise 3 "db" (env_with sync_fails)
                      purge_on cache_ok three meta0 2 in
  let adds := adds_of (trace (outcome_state o)) in
  Error kIOError "disk full" =
  if ok (status three) then
    first_failure
      [Finish (deps false) adds;
       if disableDataSync purge_on then OK
       else if use_fsync purge_on then Fsync sync_fails else Sync sync_fails;
       Close sync_fails;
       NewIterator cache_ok (number meta0) (FileSize (deps false) adds)]
  else status three.
Proof.
  refine (@BuildTable_reports_first_failure (deps false) bytewise 3 "db"
            (env_with sync_fails) purge_on cache_ok three meta0 2 _ _
            (Error kIOError "disk full") _).
  - discriminate.
  - reflexivity.
  - reflexivity.
Defined.

Lemma BuildTable_descriptor_frame_witness :
  let st := outcome_state
              (BuildTable (deps false) bytewise 3 "db" env_fail purge_on
                          cache_ok three meta0 2) in
  smallest (meta st) = smallest meta0 /\
  largest (meta st) = largest meta0 /\
  file_size (meta st) = 0.
Proof.
  refine (proj2
    (@BuildTable_descriptor_frame (deps false) bytewise 3 "db" env_fail
       purge_on cache_ok three meta0 2) _).
  right. reflexivity.
Defined.


Lemma BuildTable_purge_output_distinct_witness :
  no_adjacent_same (deps false) bytewise
    (adds_of (trace (outcome_state
                       (BuildTable (deps false) bytewise 3 "db" env_ok
                                   purge_on cache_ok three meta0 2)))) = true.
Proof.
  refine (@BuildTable_purge_output_distinct (deps false) bytewise 3 "db"
            env_ok purge_on cache_ok three meta0 2 _).
  reflexivity.
Defined.

Lemma BuildTable_purge_keeps_distinct_source_witness :
  adds_of (trace (outcome_state
                    (BuildTable (deps false) bytewise 3 "db" env_ok purge_on
                                cache_ok (source [a5; b4]) meta0 2)))
  = [a5; b4].
Proof.
  refine (@BuildTable_purge_keeps_distinct_source (deps false) bytewise 3
            "db" env_ok purge_on cache_ok (source [a5; b4]) meta0 2
            _ _ _ _).
  - reflexivity.
  - reflexivity.
  - reflexivity.
  - right. repeat constructor; vm_compute; discriminate.
Defined.

Lemma BuildTable_purge_idempotent_witness :
  adds_of (trace (outcome_state
                    (BuildTable (deps false) bytewise 3 "db" env_ok purge_on
                                cache_ok (source [a5; b4]) meta0 2)))
  = [a5; b4].
Proof.
  refine (@BuildTable_purge_idempotent (deps false) bytewise 3 "db" env_ok
            purge_on cache_ok three (source [a5; b4]) meta0 2 _ _ _ _).
  - reflexivity.
  - reflexivity.
  - right. repeat constructor; vm_compute; discriminate.
  - reflexivity.
Defined.

Lemma BuildTable_copy_ignores_keys_witness :
  BuildTable (with_parser (deps false) blind_parse) blind 3 "db" env_ok
             purge_off cache_ok three meta0 2 =
  BuildTable (deps false) bytewise 3 "db" env_ok purge_off cache_ok three
             meta0 2.
Proof.
  refine (@BuildTable_copy_ignores_keys (deps false) bytewise 3 "db" env_ok
            purge_off cache_ok three meta0 2 blind_parse blind _).
  reflexivity.
Defined.

Lemma BuildTable_purge_faults_below_earliest_witness :
  exists w st,
    BuildTable (deps false) bytewise 4 "db" env_ok purge_on cache_ok three
               meta0 2 = Faulted w st /\
    w <> AssertFileSize /\
    existsb is_delete (trace st) = false /\
    disk_after empty_disk (trace st) (file_name "db" 7) = true.
Proof.
  refine (@BuildTable_purge_faults_below_earliest (deps false) bytewise 4
            "db" env_ok purge_on cache_ok three meta0 2 empty_disk
            _ _ _ _).
  - reflexivity.
  - reflexivity.
  - reflexivity.
  - apply Exists_cons_tl, Exists_cons_hd. vm_compute. reflexivity.
Defined.

Lemma BuildTable_verifies_what_it_recorded_witness :
  let st := outcome_state
              (BuildTable (deps false) bytewise 3 "db" env_ok purge_on
                          cache_corrupt three meta0 2) in
  7 = number meta0 /\ 248 = file_size (meta st) /\
  In (EvFinish OK) (trace st) /\ In (EvClose OK) (trace st).
Proof.
  refine (@BuildTable_verifies_what_it_recorded (deps false) bytewise 3
            "db" env_ok purge_on cache_corrupt three meta0 2
            7 248 (Error kCorruption "bad block") _).
  vm_compute. tauto.
Defined.

Lemma BuildTable_fault_leaves_file_witness :
  let o := BuildTable (deps false) bytewise 3 "db" env_ok purge_on cache_ok
                      (source [a3; a5]) meta0 2 in
  NDEBUG (deps false) = false /\
  In (EvNewWritableFile (file_name "db" 7) OK) (trace (outcome_state o)) /\
  existsb is_delete (trace (outcome_state o)) = false /\
  disk_after empty_disk (trace (outcome_state o)) (file_name "db" 7) = true.
Proof.
  refine (@BuildTable_fault_leaves_file (deps false) bytewise 3 "db" env_ok
            purge_on cache_ok (source [a3; a5]) meta0 2 empty_disk
            AssertSeqnoDecreasing
            (outcome_state
               (BuildTable (deps false) bytewise 3 "db" env_ok purge_on
                           cache_ok (source [a3; a5]) meta0 2)) _).
  reflexivity.
Defined.

End Witnesses.
